(** * The MeshCoP Joiner role (src/core/meshcop/joiner.cpp)

    A shallow embedding of the Joiner of the Thread commissioning protocol:
    [Start], [Stop], [Close], [HandleDiscoverResult],
    [HandleJoinerFinalizeResponse], [HandleJoinerEntrust],
    [SendJoinerEntrustResponse], [HandleTimer] and [SendJoinerFinalize].

    The Joiner owns four fields and otherwise acts on collaborators it
    reaches through [mNetif], [mSecureCoapClient], [mCoapServer] and
    [mTimer].  A handler is a state transformer over the Joiner's fields
    that records, in program order, every call it makes on a collaborator.
    What a collaborator answers is read from the type classes below. *)

From Stdlib Require Import ZArith List String Bool Lia.
From stdpp Require Import base decidable list gmap.
Import ListNotations.

Local Open Scope Z_scope.

(** ** Error codes, CoAP headers, TLVs *)

(** [ThreadError]: the codes joiner.cpp names, and the others a collaborator
    may hand back. *)
Inductive ThreadError : Type :=
| kThreadError_None
| kThreadError_Drop
| kThreadError_NoBufs
| kThreadError_Parse
| kThreadError_Other (code : Z).

#[global] Instance ThreadError_eq_dec : EqDecision ThreadError.
Proof. solve_decision. Defined.

Inductive CoapType : Type :=
| kCoapTypeConfirmable
| kCoapTypeNonConfirmable
| kCoapTypeAcknowledgment
| kCoapTypeReset.

#[global] Instance CoapType_eq_dec : EqDecision CoapType.
Proof. solve_decision. Defined.

Inductive CoapCode : Type :=
| kCoapRequestGet
| kCoapRequestPost
| kCoapRequestPut
| kCoapRequestDelete
| kCoapResponseChanged
| kCoapResponseContent
| kCoapCodeOther (code : Z).

#[global] Instance CoapCode_eq_dec : EqDecision CoapCode.
Proof. solve_decision. Defined.

(** [Coap::Header], as far as the Joiner reads it. *)
Record Header : Type := mkHeader {
  GetType : CoapType;
  GetCode : CoapCode;
  GetMessageId : Z;
  GetToken : list Z
}.

(** The payload of a [Message]: its bytes. *)
Definition Message : Type := list Z.

(** The TLV types the Joiner fetches. *)
Inductive TlvType : Type :=
| kState
| kNetworkMasterKey
| kMeshLocalPrefix
| kExtendedPanId
| kNetworkName
| kActiveTimestamp.

#[global] Instance TlvType_eq_dec : EqDecision TlvType.
Proof. solve_decision. Defined.

(** A TLV as it sits in a local variable of one of the TLV classes: the
    length byte and the bytes of the value array, all of them, whether or
    not anything was ever written there. *)
Record Tlv : Type := mkTlv {
  GetLength : Z;
  GetValue : list Z
}.

(** [Mac::ExtAddress] / [otExtAddress]: the array [m8]. *)
Record ExtAddress : Type := mkExtAddress { m8 : list Z }.

(** [sizeof(Mac::ExtAddress)] *)
Definition sizeof_ExtAddress : nat := 8.

(** [otSteeringData] inside a scan result. *)
Record otSteeringData : Type := mkSteeringData {
  mLength : Z;
  sd_m8 : list Z
}.

(** [otActiveScanResult], the fields [HandleDiscoverResult] reads. *)
Record otActiveScanResult : Type := mkScanResult {
  mExtAddress : ExtAddress;
  mSteeringData : otSteeringData;
  mJoinerUdpPort : Z;
  mPanId : Z;
  mChannel : Z
}.

(** [Ip6::MessageInfo] *)
Record MessageInfo : Type := mkMessageInfo {
  mSockAddr : list Z;
  mPeerAddr : list Z;
  mSockPort : Z;
  mPeerPort : Z;
  mInterfaceId : Z
}.

(** ** The Joiner's own fields

    [mJoinerUdpPort_] is the member [mJoinerUdpPort]; the plain name is
    taken by the field of the scan result. *)

Record Joiner : Type := mkJoiner {
  mJoinerRouterChannel : Z;
  mJoinerRouterPanId : Z;
  mJoinerUdpPort_ : Z;
  mJoinerRouter : ExtAddress
}.

(** The constructor's initialiser list; [mJoinerRouter] is not in it and
    holds whatever the storage held.  (The constructor also registers the
    entrust resource with the CoAP server.) *)
Definition Joiner_ctor (garbage : ExtAddress) : Joiner :=
  {| mJoinerRouterChannel := 0;
     mJoinerRouterPanId := 0;
     mJoinerUdpPort_ := 0;
     mJoinerRouter := garbage |}.

(** ** Calls on collaborators

    One constructor for each call joiner.cpp makes that can change
    something outside the Joiner, with the arguments it passes; callback
    and context-pointer arguments are left out.  Getters are not recorded. *)

Inductive Call : Type :=
| Mac_SetExtAddress (aExtAddress : ExtAddress)
| Mle_UpdateLinkLocalAddress
| Dtls_SetPsk (aPsk : string) (aPskLength : Z)
| ProvisioningUrl_SetProvisioningUrl (aProvisioningUrl : option string)
| Mle_Discover (aScanChannels aScanDuration aPanId : Z)
| SecureCoapClient_Disconnect
| Ip6Filter_RemoveUnsecurePort (aPort : Z)
| Mac_SetPanId (aPanId : Z)
| Mac_SetChannel (aChannel : Z)
| Ip6Filter_AddUnsecurePort (aPort : Z)
| SecureCoapClient_Connect (aMessageInfo : MessageInfo)
| KeyManager_SetMasterKey (aKey : list Z) (aKeyLength : Z)
| Mle_SetMeshLocalPrefix (aPrefix : list Z)
| Mac_SetExtendedPanId (aExtPanId : list Z)
| Mac_SetNetworkName (aName : list Z)
| CoapServer_NewMessage (aReserved : Z)
| Message_SetSubType_JoinerEntrust
| Message_Append (aBytes : list Z)
| CoapServer_SendMessage (aMessage : Message) (aMessageInfo : MessageInfo)
| Message_Free
| Timer_Start (aDt : Z).

#[global] Instance ExtAddress_eq_dec : EqDecision ExtAddress.
Proof. solve_decision. Defined.

#[global] Instance MessageInfo_eq_dec : EqDecision MessageInfo.
Proof. solve_decision. Defined.

#[global] Instance Call_eq_dec : EqDecision Call.
Proof. solve_decision. Defined.

(** ** Control flow

    A function body runs on a [Store]: the Joiner's fields and the calls
    made so far (oldest first).  Inside a body, [SuccessOrExit] and
    [VerifyOrExit] may jump to the [exit:] label; a division by zero or a
    null dereference has no defined continuation. *)

Record Store : Type := mkStore {
  self : Joiner;
  calls : list Call
}.

Inductive UB : Type :=
| DivisionByZero
| NullDereference.

(** What a whole function does. *)
Inductive Outcome (A : Type) : Type :=
| Returns (a : A) (s : Store)
| Undefined (u : UB).
Arguments Returns {A} a s.
Arguments Undefined {A} u.

(** What a statement inside a body does; [E] is what the body carries to
    its [exit:] label (the local [error], or nothing). *)
Inductive Flow (E A : Type) : Type :=
| Next (a : A) (s : Store)
| Exit (e : E) (s : Store)
| Stuck (u : UB).
Arguments Next {E A} a s.
Arguments Exit {E A} e s.
Arguments Stuck {E A} u.

Definition F (A : Type) : Type := Store -> Outcome A.
Definition M (E A : Type) : Type := Store -> Flow E A.

Definition ret {E A} (a : A) : M E A := fun s => Next a s.

Definition bind {E A B} (m : M E A) (k : A -> M E B) : M E B :=
  fun s =>
    match m s with
    | Next a s' => k a s'
    | Exit e s' => Exit e s'
    | Stuck u => Stuck u
    end.

Notation "x <- m ;; k" := (bind m (fun x => k))
  (at level 90, m at level 80, right associativity).
Notation "m ;;; k" := (bind m (fun _ => k))
  (at level 90, right associativity).

(** [goto exit] *)
Definition goto_exit {E A} (e : E) : M E A := fun s => Exit e s.

(** [VerifyOrExit(cond, action)], with [e] what [action] leaves for the
    [exit:] label. *)
Definition VerifyOrExit {E} (cond : bool) (e : E) : M E unit :=
  if cond then ret tt else goto_exit e.

(** A call on a collaborator: recorded after the earlier ones. *)
Definition emit {E} (c : Call) : M E unit :=
  fun s => Next tt {| self := self s; calls := calls s ++ [c] |}.

(** A call whose answer the body uses. *)
Definition invoke {E A} (c : Call) (answer : A) : M E A :=
  emit c ;;; ret answer.

Definition get_self {E} : M E Joiner := fun s => Next (self s) s.

Definition set_self {E} (f : Joiner -> Joiner) : M E unit :=
  fun s => Next tt {| self := f (self s); calls := calls s |}.

(** Undefined behaviour. *)
Definition stuck {E A} (u : UB) : M E A := fun _ => Stuck u.

(** A call of another member function from inside a body. *)
Definition call {E A} (f : F A) : M E A :=
  fun s =>
    match f s with
    | Returns a s' => Next a s'
    | Undefined u => Stuck u
    end.

(** Straight-line code that jumps nowhere. *)
Definition block {A} (m : M Empty_set A) : F A :=
  fun s =>
    match m s with
    | Next a s' => Returns a s'
    | Exit e _ => match e with end
    | Stuck u => Undefined u
    end.

(** A function: its body, then the code at its [exit:] label, reached by
    falling through or by a jump. *)
Definition with_exit {E A} (body : M E E) (at_exit : E -> F A) : F A :=
  fun s =>
    match body s with
    | Next e s' => at_exit e s'
    | Exit e s' => at_exit e s'
    | Stuck u => Undefined u
    end.

(** A handler run on the Joiner [j], with nothing recorded yet. *)
Definition run {A} (f : F A) (j : Joiner) : Outcome A :=
  f {| self := j; calls := [] |}.

(** ** Collaborators

    joiner.cpp is the only translation unit modelled; what it calls lives
    elsewhere.  An answer that joiner.cpp only passes on or branches on is
    a field of one of the classes below. *)

(** [Crc16::Polynomial] *)
Inductive Polynomial : Type := kCcitt | kAnsi.

(** [Crc16] (common/crc16.hpp): constructed from a polynomial, fed bytes
    with [Update], read with [Get]. *)
Class Crc16Lib : Type := {
  Crc16 : Type;
  Crc16_ctor : Polynomial -> Crc16;
  Crc16_Update : Crc16 -> Z -> Crc16;
  Crc16_Get : Crc16 -> Z
}.

(** The TLV library (meshcop_tlvs.hpp): [Tlv::GetTlv] is given the
    message, the type, the size of the caller's variable and what that
    variable holds, and hands back an error code and what the variable
    holds afterwards; each TLV class has its own [IsValid];
    [SteeringDataTlv::GetBit] tests one bit. *)
Class MeshCoPTlvs : Type := {
  sizeof_Tlv : TlvType -> Z;
  Tlv_GetTlv : Message -> TlvType -> Z -> Tlv -> ThreadError * Tlv;
  Tlv_IsValid : TlvType -> Tlv -> bool;
  SteeringDataTlv_GetBit : Tlv -> Z -> bool
}.

(** What the network interface and the objects behind it answer while one
    handler runs. *)
Class ThreadNetif : Type := {
  Mac_GetHashMacAddress : ExtAddress;
  Mac_GetPanId : Z;
  SecureCoapClient_GetPort : Z;
  Dtls_SetPsk_returns : string -> Z -> ThreadError;
  SetProvisioningUrl_returns : option string -> ThreadError;
  Mle_Discover_returns : Z -> Z -> Z -> ThreadError;
  (** [false]: [NewMessage] gave [NULL] *)
  CoapServer_NewMessage_returns : Z -> bool;
  Message_Append_returns : list Z -> ThreadError;
  CoapServer_SendMessage_returns : Message -> MessageInfo -> ThreadError;
  (** a default-constructed [Ip6::MessageInfo] *)
  MessageInfo_ctor : MessageInfo;
  Ip6Address_SetIid : list Z -> ExtAddress -> list Z;
  Header_SetDefaultResponseHeader : Header -> Header;
  Header_GetBytes : Header -> list Z;
  OT_NETIF_INTERFACE_ID_THREAD : Z;
  kConfigExtAddressDelay : Z
}.

(** [Mac::kPanIdBroadcast], the IEEE 802.15.4 broadcast PAN id. *)
Definition kPanIdBroadcast : Z := 0xffff.

(** Modelled from the spec: [SteeringDataTlv::GetNumBits] is declared in
    meshcop_tlvs.hpp, which is not among the sources.  The spec's
    SteeringBitmap has a "length in bits" and the scan result carries the
    bitmap's length in bytes: eight bits for each byte. *)
Definition SteeringDataTlv_GetNumBits (steeringData : Tlv) : Z :=
  GetLength steeringData * 8.

(** [a % b] on unsigned operands; a zero divisor is undefined. *)
Definition c_mod {E} (a b : Z) : M E Z :=
  if b =? 0 then stuck DivisionByZero else ret (a mod b).

(** [*p] *)
Definition deref {E A} (p : option A) : M E A :=
  match p with
  | Some a => ret a
  | None => stuck NullDereference
  end.

(** [static_cast<uint8_t>] *)
Definition to_uint8 (z : Z) : Z := z mod 256.

(** [strlen] *)
Definition strlen (s : string) : Z := Z.of_nat (String.length s).

(** [m16[0] = HostSwap16(v)]: the two bytes of [v], high byte first. *)
Definition set_m16_0 (v : Z) (addr : list Z) : list Z :=
  <[1%nat := Z.land v 0xff]> (<[0%nat := Z.shiftr v 8]> addr).

(** [SuccessOrExit(status)]; [e] is what the [exit:] label finds. *)
Definition SuccessOrExit {E} (status : ThreadError) (e : E) : M E unit :=
  if bool_decide (status = kThreadError_None) then ret tt else goto_exit e.

(** ** The member functions *)

Section JoinerCode.
Context {crc16 : Crc16Lib} {tlvs : MeshCoPTlvs} {mNetif : ThreadNetif}.

(** [Joiner::Close] *)
Definition Close : F unit :=
  block
    (emit SecureCoapClient_Disconnect ;;;
     emit (Ip6Filter_RemoveUnsecurePort SecureCoapClient_GetPort)).

(** [Joiner::Stop] *)
Definition Stop : F ThreadError :=
  block
    (call Close ;;;
     ret kThreadError_None).

(** [Joiner::Start] *)
Definition Start (aPSKd : string) (aProvisioningUrl : option string)
  : F ThreadError :=
  with_exit
    (let extAddress := Mac_GetHashMacAddress in
     emit (Mac_SetExtAddress extAddress) ;;;
     emit Mle_UpdateLinkLocalAddress ;;;
     error <- invoke (Dtls_SetPsk aPSKd (to_uint8 (strlen aPSKd)))
                     (Dtls_SetPsk_returns aPSKd (to_uint8 (strlen aPSKd))) ;;
     SuccessOrExit error error ;;;
     error <- invoke (ProvisioningUrl_SetProvisioningUrl aProvisioningUrl)
                     (SetProvisioningUrl_returns aProvisioningUrl) ;;
     SuccessOrExit error error ;;;
     set_self (fun j => {| mJoinerRouterChannel := mJoinerRouterChannel j;
                           mJoinerRouterPanId := kPanIdBroadcast;
                           mJoinerUdpPort_ := mJoinerUdpPort_ j;
                           mJoinerRouter := mJoinerRouter j |}) ;;;
     error <- invoke (Mle_Discover 0 0 Mac_GetPanId)
                     (Mle_Discover_returns 0 0 Mac_GetPanId) ;;
     SuccessOrExit error error ;;;
     ret error)
    (fun error => block (ret error)).

(** The loop over the bytes of the hashed address, feeding both CRCs:
    [n] iterations are left and [i] is the index. *)
Fixpoint crc_loop (n : nat) (i : nat) (extAddress : ExtAddress)
    (ccitt ansi : Crc16) : Crc16 * Crc16 :=
  match n with
  | O => (ccitt, ansi)
  | S n' =>
      let b := nth i (m8 extAddress) 0 in
      crc_loop n' (S i) extAddress (Crc16_Update ccitt b) (Crc16_Update ansi b)
  end.

(** [steeringData.SetLength(...); memcpy(steeringData.GetValue(), ...)]: the
    length byte, and that many bytes of the result's [m8]. *)
Definition copy_steering_data (sd : otSteeringData) : Tlv :=
  {| GetLength := mLength sd;
     GetValue := firstn (Z.to_nat (mLength sd)) (sd_m8 sd) |}.

(** [Joiner::HandleDiscoverResult]; [None] is the [NULL] that ends the
    scan. *)
Definition HandleDiscoverResult (aResult : option otActiveScanResult)
  : F unit :=
  block
    (match aResult with
     | Some r =>
         let extAddress := Mac_GetHashMacAddress in
         let '(ccitt, ansi) :=
           crc_loop sizeof_ExtAddress 0 extAddress
                    (Crc16_ctor kCcitt) (Crc16_ctor kAnsi) in
         let steeringData := copy_steering_data (mSteeringData r) in
         i1 <- c_mod (Crc16_Get ccitt) (SteeringDataTlv_GetNumBits steeringData) ;;
         if SteeringDataTlv_GetBit steeringData i1 then
           i2 <- c_mod (Crc16_Get ansi) (SteeringDataTlv_GetNumBits steeringData) ;;
           if SteeringDataTlv_GetBit steeringData i2 then
             set_self (fun _ => {| mJoinerRouterChannel := mChannel r;
                                   mJoinerRouterPanId := mPanId r;
                                   mJoinerUdpPort_ := mJoinerUdpPort r;
                                   mJoinerRouter := mExtAddress r |})
           else ret tt
         else ret tt
     | None =>
         j <- get_self ;;
         if negb (mJoinerRouterPanId j =? kPanIdBroadcast) then
           emit (Mac_SetPanId (mJoinerRouterPanId j)) ;;;
           emit (Mac_SetChannel (mJoinerRouterChannel j)) ;;;
           emit (Ip6Filter_AddUnsecurePort SecureCoapClient_GetPort) ;;;
           let messageInfo :=
             {| mSockAddr := mSockAddr MessageInfo_ctor;
                mPeerAddr :=
                  Ip6Address_SetIid
                    (set_m16_0 0xfe80 (mPeerAddr MessageInfo_ctor))
                    (mJoinerRouter j);
                mSockPort := mSockPort MessageInfo_ctor;
                mPeerPort := mJoinerUdpPort_ j;
                mInterfaceId := OT_NETIF_INTERFACE_ID_THREAD |} in
           emit (SecureCoapClient_Connect messageInfo)
         else ret tt
     end).

(** [Joiner::HandleJoinerFinalizeResponse]; the header and the message
    come as pointers, and [uninitialised] is what the local [state] holds
    when the function is entered. *)
Definition HandleJoinerFinalizeResponse (aHeader : option Header)
    (aMessage : option Message) (aResult : ThreadError)
    (uninitialised : Tlv) : F unit :=
  with_exit
    (ok <- (if bool_decide (aResult = kThreadError_None) then
              h <- deref aHeader ;;
              ret (bool_decide (GetType h = kCoapTypeAcknowledgment) &&
                   bool_decide (GetCode h = kCoapResponseChanged))
            else ret false) ;;
     VerifyOrExit ok tt ;;;
     m <- deref aMessage ;;
     let '(status, state) :=
       Tlv_GetTlv m kState (sizeof_Tlv kState) uninitialised in
     SuccessOrExit status tt ;;;
     VerifyOrExit (Tlv_IsValid kState state) tt ;;;
     ret tt)
    (fun _ => block (call Close)).

(** [Joiner::SendJoinerEntrustResponse]; the [exit:] label looks at
    [error] and at whether [message] is non-null. *)
Definition SendJoinerEntrustResponse (aRequestHeader : Header)
    (aRequestInfo : MessageInfo) : F unit :=
  with_exit
    (message <- invoke (CoapServer_NewMessage 0)
                       (CoapServer_NewMessage_returns 0) ;;
     VerifyOrExit message (kThreadError_NoBufs, false) ;;;
     emit Message_SetSubType_JoinerEntrust ;;;
     let responseHeader := Header_SetDefaultResponseHeader aRequestHeader in
     let bytes := Header_GetBytes responseHeader in
     error <- invoke (Message_Append bytes) (Message_Append_returns bytes) ;;
     SuccessOrExit error (error, true) ;;;
     let responseInfo :=
       {| mSockAddr := map (fun _ => 0) (mSockAddr aRequestInfo);
          mPeerAddr := mPeerAddr aRequestInfo;
          mSockPort := mSockPort aRequestInfo;
          mPeerPort := mPeerPort aRequestInfo;
          mInterfaceId := mInterfaceId aRequestInfo |} in
     error <- invoke (CoapServer_SendMessage bytes responseInfo)
                     (CoapServer_SendMessage_returns bytes responseInfo) ;;
     SuccessOrExit error (error, true) ;;;
     ret (error, true))
    (fun '(error, message) =>
       block
         (if negb (bool_decide (error = kThreadError_None)) && message
          then emit Message_Free
          else ret tt)).

(** [Joiner::HandleJoinerEntrust]; [uninitialised ty] is what the local
    variable for the TLV of type [ty] holds when the function is entered.
    A setter that is given a pointer into such a local is recorded with
    the bytes of the local's value array as [Tlv::GetTlv] left them; only
    [SetMasterKey] is also given a length. *)
Definition HandleJoinerEntrust (aHeader : Header) (aMessage : Message)
    (aMessageInfo : MessageInfo) (uninitialised : TlvType -> Tlv) : F unit :=
  with_exit
    (VerifyOrExit (bool_decide (GetType aHeader = kCoapTypeConfirmable) &&
                   bool_decide (GetCode aHeader = kCoapRequestPost))
                  kThreadError_Drop ;;;
     let '(error, masterKey) :=
       Tlv_GetTlv aMessage kNetworkMasterKey (sizeof_Tlv kNetworkMasterKey)
                  (uninitialised kNetworkMasterKey) in
     SuccessOrExit error error ;;;
     VerifyOrExit (Tlv_IsValid kNetworkMasterKey masterKey) kThreadError_Parse ;;;
     let '(error, meshLocalPrefix) :=
       Tlv_GetTlv aMessage kMeshLocalPrefix (sizeof_Tlv kMeshLocalPrefix)
                  (uninitialised kMeshLocalPrefix) in
     SuccessOrExit error error ;;;
     VerifyOrExit (Tlv_IsValid kMeshLocalPrefix meshLocalPrefix) kThreadError_Parse ;;;
     let '(error, extendedPanId) :=
       Tlv_GetTlv aMessage kExtendedPanId (sizeof_Tlv kExtendedPanId)
                  (uninitialised kExtendedPanId) in
     SuccessOrExit error error ;;;
     VerifyOrExit (Tlv_IsValid kExtendedPanId extendedPanId) kThreadError_Parse ;;;
     let '(error, networkName) :=
       Tlv_GetTlv aMessage kNetworkName (sizeof_Tlv kNetworkName)
                  (uninitialised kNetworkName) in
     SuccessOrExit error error ;;;
     VerifyOrExit (Tlv_IsValid kNetworkName networkName) kThreadError_Parse ;;;
     let '(error, activeTimestamp) :=
       Tlv_GetTlv aMessage kActiveTimestamp (sizeof_Tlv kActiveTimestamp)
                  (uninitialised kActiveTimestamp) in
     SuccessOrExit error error ;;;
     VerifyOrExit (Tlv_IsValid kActiveTimestamp activeTimestamp) kThreadError_Parse ;;;
     emit (KeyManager_SetMasterKey (GetValue masterKey) (GetLength masterKey)) ;;;
     emit (Mle_SetMeshLocalPrefix (GetValue meshLocalPrefix)) ;;;
     emit (Mac_SetExtendedPanId (GetValue extendedPanId)) ;;;
     emit (Mac_SetNetworkName (GetValue networkName)) ;;;
     call (SendJoinerEntrustResponse aHeader aMessageInfo) ;;;
     emit (Timer_Start kConfigExtAddressDelay) ;;;
     ret error)
    (fun _ => block (ret tt)).

End JoinerCode.

(** ** A reference platform

    One concrete choice of collaborators on which the handlers can be run:
    a bitwise CRC-16, a TLV reader over type/length/value bytes, and a
    network interface whose fallible calls answer as told. *)

Module Reference.

(** One step of a 16-bit CRC, most significant bit first. *)
Definition crc_shift (poly crc : Z) : Z :=
  if Z.testbit crc 15
  then Z.lxor (Z.land (Z.shiftl crc 1) 0xffff) poly
  else Z.land (Z.shiftl crc 1) 0xffff.

Definition crc_update (poly crc byte : Z) : Z :=
  Nat.iter 8 (crc_shift poly) (Z.lxor crc (Z.land (Z.shiftl byte 8) 0xffff)).

Definition polynomial_value (p : Polynomial) : Z :=
  match p with
  | kCcitt => 0x1021
  | kAnsi => 0x8005
  end.

#[export] Instance crc16 : Crc16Lib :=
  {| Crc16 := Z * Z;
     Crc16_ctor := fun p => (polynomial_value p, 0);
     Crc16_Update := fun c b => (fst c, crc_update (fst c) (snd c) b);
     Crc16_Get := snd |}.

Definition tlv_code (ty : TlvType) : Z :=
  match ty with
  | kState => 16
  | kNetworkMasterKey => 5
  | kMeshLocalPrefix => 7
  | kExtendedPanId => 2
  | kNetworkName => 3
  | kActiveTimestamp => 14
  end.

(** The first TLV of type [ty] in [bytes]: type byte, length byte, value. *)
Fixpoint find_tlv (fuel : nat) (ty : Z) (bytes : list Z) : option Tlv :=
  match fuel with
  | O => None
  | S fuel' =>
      match bytes with
      | t :: l :: rest =>
          if t =? ty
          then Some {| GetLength := l; GetValue := firstn (Z.to_nat l) rest |}
          else find_tlv fuel' ty (skipn (Z.to_nat l) rest)
      | _ => None
      end
  end.

Definition kThreadError_NotFound : ThreadError := kThreadError_Other 23.

(** [new] written over the front of [old]. *)
Definition overlay (new old : list Z) : list Z :=
  new ++ skipn (List.length new) old.

(** The TLV is copied into the caller's variable as far as the variable
    goes ([size] bytes, two of them the type and the length); what lies
    behind the copied bytes stays as it was.  Without such a TLV the
    variable is not written. *)
Definition get_tlv (m : Message) (ty : TlvType) (size : Z) (variable : Tlv)
  : ThreadError * Tlv :=
  match find_tlv (List.length m) (tlv_code ty) m with
  | Some t =>
      (kThreadError_None,
       {| GetLength := GetLength t;
          GetValue := overlay (firstn (Z.to_nat (size - 2)) (GetValue t))
                              (GetValue variable) |})
  | None => (kThreadError_NotFound, variable)
  end.

Definition is_valid (ty : TlvType) (t : Tlv) : bool :=
  match ty with
  | kState => GetLength t =? 1
  | kNetworkMasterKey => GetLength t =? 16
  | kMeshLocalPrefix => GetLength t =? 8
  | kExtendedPanId => GetLength t =? 8
  | kNetworkName => GetLength t <=? 16
  | kActiveTimestamp => GetLength t =? 8
  end.

(** Bit [aBit] of the bitmap, counted from the low bit of the last byte. *)
Definition get_bit (t : Tlv) (aBit : Z) : bool :=
  Z.testbit
    (nth (Z.to_nat (GetLength t - 1 - aBit / 8)) (GetValue t) 0)
    (aBit mod 8).

#[export] Instance tlvs : MeshCoPTlvs :=
  {| sizeof_Tlv := fun ty =>
       match ty with
       | kState => 3
       | kNetworkMasterKey => 18
       | kMeshLocalPrefix => 10
       | kExtendedPanId => 10
       | kNetworkName => 18
       | kActiveTimestamp => 10
       end;
     Tlv_GetTlv := get_tlv;
     Tlv_IsValid := is_valid;
     SteeringDataTlv_GetBit := get_bit |}.

(** The identity of the spec's end-to-end scenario. *)
Definition hashMac : ExtAddress :=
  {| m8 := [0xAA; 0xBB; 0xCC; 0xDD; 0xEE; 0xFF; 0x00; 0x11] |}.

Definition zero_info : MessageInfo :=
  {| mSockAddr := repeat 0 16;
     mPeerAddr := repeat 0 16;
     mSockPort := 0;
     mPeerPort := 0;
     mInterfaceId := 0 |}.

Definition header_bytes (h : Header) : list Z :=
  let ty := match GetType h with
            | kCoapTypeConfirmable => 0
            | kCoapTypeNonConfirmable => 1
            | kCoapTypeAcknowledgment => 2
            | kCoapTypeReset => 3
            end in
  let code := match GetCode h with
              | kCoapRequestGet => 1
              | kCoapRequestPost => 2
              | kCoapRequestPut => 3
              | kCoapRequestDelete => 4
              | kCoapResponseChanged => 68
              | kCoapResponseContent => 69
              | kCoapCodeOther c => c
              end in
  [64 + 16 * ty + Z.of_nat (List.length (GetToken h)); code;
   Z.shiftr (GetMessageId h) 8; Z.land (GetMessageId h) 0xff] ++ GetToken h.

(** A network interface whose four fallible services answer [setPsk],
    [discover], [newMessage] and [sendMessage]. *)
Definition netif (setPsk discover : ThreadError) (newMessage : bool)
    (sendMessage : ThreadError) : ThreadNetif :=
  {| Mac_GetHashMacAddress := hashMac;
     Mac_GetPanId := 0xffff;
     SecureCoapClient_GetPort := 49191;
     Dtls_SetPsk_returns := fun _ _ => setPsk;
     SetProvisioningUrl_returns := fun _ => kThreadError_None;
     Mle_Discover_returns := fun _ _ _ => discover;
     CoapServer_NewMessage_returns := fun _ => newMessage;
     Message_Append_returns := fun _ => kThreadError_None;
     CoapServer_SendMessage_returns := fun _ _ => sendMessage;
     MessageInfo_ctor := zero_info;
     Ip6Address_SetIid := fun addr iid => firstn 8 addr ++ m8 iid;
     Header_SetDefaultResponseHeader := fun h =>
       {| GetType := kCoapTypeAcknowledgment;
          GetCode := kCoapResponseChanged;
          GetMessageId := GetMessageId h;
          GetToken := GetToken h |};
     Header_GetBytes := header_bytes;
     OT_NETIF_INTERFACE_ID_THREAD := 1;
     kConfigExtAddressDelay := 100 |}.

(** Every service succeeds. *)
Definition healthy : ThreadNetif :=
  netif kThreadError_None kThreadError_None true kThreadError_None.

Definition idle : Joiner := Joiner_ctor {| m8 := repeat 0 8 |}.

(** A Joiner after a successful [Start]. *)
Definition started : Joiner :=
  {| mJoinerRouterChannel := 0;
     mJoinerRouterPanId := kPanIdBroadcast;
     mJoinerUdpPort_ := 0;
     mJoinerRouter := {| m8 := repeat 0 8 |} |}.

End Reference.

(** ** Observations *)

(** Modelled from the spec: the secured channel and the packet filter are
    collaborators whose code is not among the sources.  The spec gives the
    secured channel a Connect/Disconnect lifecycle and the filter an
    exception per port that is opened and released; [effect] is what a
    recorded call does to that much of their state. *)
Record Net : Type := mkNet {
  secure_channel_open : bool;
  unsecure_ports : gset Z
}.

(** Modelled from the spec: connecting opens the secured channel and
    disconnecting closes it; adding a port opens its exception and removing
    it releases the exception; no other call touches either. *)
Definition effect (c : Call) (n : Net) : Net :=
  match c with
  | SecureCoapClient_Connect _ =>
      {| secure_channel_open := true; unsecure_ports := unsecure_ports n |}
  | SecureCoapClient_Disconnect =>
      {| secure_channel_open := false; unsecure_ports := unsecure_ports n |}
  | Ip6Filter_AddUnsecurePort p =>
      {| secure_channel_open := secure_channel_open n;
         unsecure_ports := unsecure_ports n ∪ {[ p ]} |}
  | Ip6Filter_RemoveUnsecurePort p =>
      {| secure_channel_open := secure_channel_open n;
         unsecure_ports := unsecure_ports n ∖ {[ p ]} |}
  | _ => n
  end.

(** The calls of a record applied in order, for any reading [eff] of one
    call on a collaborator state [W]. *)
Definition replay {W : Type} (eff : Call -> W -> W) (cs : list Call) (w : W) : W :=
  fold_left (fun w c => eff c w) cs w.

(** The calls that install a credential, and the TLV each one installs. *)
Definition installs (c : Call) : option TlvType :=
  match c with
  | KeyManager_SetMasterKey _ _ => Some kNetworkMasterKey
  | Mle_SetMeshLocalPrefix _ => Some kMeshLocalPrefix
  | Mac_SetExtendedPanId _ => Some kExtendedPanId
  | Mac_SetNetworkName _ => Some kNetworkName
  | _ => None
  end.

(** The bytes a call hands to a credential store. *)
Definition installed_value (c : Call) : option (list Z) :=
  match c with
  | KeyManager_SetMasterKey v _ => Some v
  | Mle_SetMeshLocalPrefix v => Some v
  | Mac_SetExtendedPanId v => Some v
  | Mac_SetNetworkName v => Some v
  | _ => None
  end.

Definition is_SendMessage (c : Call) : bool :=
  match c with
  | CoapServer_SendMessage _ _ => true
  | _ => false
  end.

Definition is_Disconnect (c : Call) : bool :=
  match c with
  | SecureCoapClient_Disconnect => true
  | _ => false
  end.

(** The five TLVs of an entrust request, in the order they are fetched. *)
Definition entrust_tlvs : list TlvType :=
  [kNetworkMasterKey; kMeshLocalPrefix; kExtendedPanId; kNetworkName;
   kActiveTimestamp].

Section Observations.
Context {crc16 : Crc16Lib} {tlvs : MeshCoPTlvs} {mNetif : ThreadNetif}.

(** The request is a confirmable POST. *)
Definition confirmable_post (aHeader : Header) : bool :=
  bool_decide (GetType aHeader = kCoapTypeConfirmable) &&
  bool_decide (GetCode aHeader = kCoapRequestPost).

(** The local for the TLV of type [ty] as [Tlv::GetTlv] leaves it, given
    what the locals held before. *)
Definition fetched (m : Message) (locals : TlvType -> Tlv) (ty : TlvType) : Tlv :=
  snd (Tlv_GetTlv m ty (sizeof_Tlv ty) (locals ty)).

(** The TLV of type [ty] is present in [m] and passes its [IsValid]. *)
Definition tlv_ok (m : Message) (locals : TlvType -> Tlv) (ty : TlvType) : bool :=
  bool_decide (fst (Tlv_GetTlv m ty (sizeof_Tlv ty) (locals ty))
               = kThreadError_None) &&
  Tlv_IsValid ty (fetched m locals ty).

(** The calls by which [Close] tears the session down. *)
Definition close_calls : list Call :=
  [SecureCoapClient_Disconnect;
   Ip6Filter_RemoveUnsecurePort SecureCoapClient_GetPort].

(** The request info with its socket address cleared. *)
Definition response_info (aRequestInfo : MessageInfo) : MessageInfo :=
  {| mSockAddr := map (fun _ => 0) (mSockAddr aRequestInfo);
     mPeerAddr := mPeerAddr aRequestInfo;
     mSockPort := mSockPort aRequestInfo;
     mPeerPort := mPeerPort aRequestInfo;
     mInterfaceId := mInterfaceId aRequestInfo |}.

Definition response_bytes (aRequestHeader : Header) : list Z :=
  Header_GetBytes (Header_SetDefaultResponseHeader aRequestHeader).

(** The message buffer, the append and the send all succeed. *)
Definition response_goes_out (aRequestHeader : Header)
    (aRequestInfo : MessageInfo) : bool :=
  CoapServer_NewMessage_returns 0 &&
  bool_decide (Message_Append_returns (response_bytes aRequestHeader)
               = kThreadError_None) &&
  bool_decide (CoapServer_SendMessage_returns
                 (response_bytes aRequestHeader) (response_info aRequestInfo)
               = kThreadError_None).

(** The calls of an attempt to acknowledge an entrust request. *)
Definition response_calls (aRequestHeader : Header)
    (aRequestInfo : MessageInfo) : list Call :=
  let bytes := response_bytes aRequestHeader in
  let info := response_info aRequestInfo in
  if negb (CoapServer_NewMessage_returns 0) then
    [CoapServer_NewMessage 0]
  else if negb (bool_decide (Message_Append_returns bytes = kThreadError_None)) then
    [CoapServer_NewMessage 0; Message_SetSubType_JoinerEntrust;
     Message_Append bytes; Message_Free]
  else if negb (bool_decide (CoapServer_SendMessage_returns bytes info
                             = kThreadError_None)) then
    [CoapServer_NewMessage 0; Message_SetSubType_JoinerEntrust;
     Message_Append bytes; CoapServer_SendMessage bytes info; Message_Free]
  else
    [CoapServer_NewMessage 0; Message_SetSubType_JoinerEntrust;
     Message_Append bytes; CoapServer_SendMessage bytes info].

(** The four credential installations of a valid entrust request: each
    setter sees the value array of its local. *)
Definition credential_calls (m : Message) (locals : TlvType -> Tlv) : list Call :=
  [KeyManager_SetMasterKey (GetValue (fetched m locals kNetworkMasterKey))
                           (GetLength (fetched m locals kNetworkMasterKey));
   Mle_SetMeshLocalPrefix (GetValue (fetched m locals kMeshLocalPrefix));
   Mac_SetExtendedPanId (GetValue (fetched m locals kExtendedPanId));
   Mac_SetNetworkName (GetValue (fetched m locals kNetworkName))].

(** The bytes of the hashed address that the CRC loop reads. *)
Definition identity_bytes (a : ExtAddress) : list Z :=
  map (fun i => nth i (m8 a) 0) (seq 0 sizeof_ExtAddress).

(** The checksum of an address under one polynomial. *)
Definition Crc16_of (p : Polynomial) (a : ExtAddress) : Z :=
  Crc16_Get (fold_left Crc16_Update (identity_bytes a) (Crc16_ctor p)).

(** The bit of the bitmap that the device's checksum under [p] selects. *)
Definition steering_bit (p : Polynomial) (r : otActiveScanResult) : bool :=
  let bitmap := copy_steering_data (mSteeringData r) in
  SteeringDataTlv_GetBit bitmap
    (Crc16_of p Mac_GetHashMacAddress mod SteeringDataTlv_GetNumBits bitmap).

(** Both selected bits are set. *)
Definition steering_match (r : otActiveScanResult) : bool :=
  steering_bit kCcitt r && steering_bit kAnsi r.

(** The Joiner's fields after it took [r] as its candidate. *)
Definition candidate_of (r : otActiveScanResult) : Joiner :=
  {| mJoinerRouterChannel := mChannel r;
     mJoinerRouterPanId := mPanId r;
     mJoinerUdpPort_ := mJoinerUdpPort r;
     mJoinerRouter := mExtAddress r |}.

(** The last result of a scan that matches the steering data. *)
Definition last_match (results : list otActiveScanResult)
  : option otActiveScanResult :=
  last (List.filter steering_match results).

(** Where the Joiner connects: fe80:: with the router as interface id. *)
Definition peer_info (j : Joiner) : MessageInfo :=
  {| mSockAddr := mSockAddr MessageInfo_ctor;
     mPeerAddr :=
       Ip6Address_SetIid (set_m16_0 0xfe80 (mPeerAddr MessageInfo_ctor))
                         (mJoinerRouter j);
     mSockPort := mSockPort MessageInfo_ctor;
     mPeerPort := mJoinerUdpPort_ j;
     mInterfaceId := OT_NETIF_INTERFACE_ID_THREAD |}.

(** The calls by which the Joiner turns to its candidate. *)
Definition connect_calls (j : Joiner) : list Call :=
  [Mac_SetPanId (mJoinerRouterPanId j);
   Mac_SetChannel (mJoinerRouterChannel j);
   Ip6Filter_AddUnsecurePort SecureCoapClient_GetPort;
   SecureCoapClient_Connect (peer_info j)].

(** The discovery callbacks of one scan, delivered in order. *)
Fixpoint Discovery (events : list (option otActiveScanResult)) : F unit :=
  match events with
  | [] => block (ret tt)
  | e :: rest =>
      block (call (HandleDiscoverResult e) ;;; call (Discovery rest))
  end.

(** What [Start] has asked for by the time the pre-shared key is judged. *)
Definition Start_first_calls (aPSKd : string) : list Call :=
  [Mac_SetExtAddress Mac_GetHashMacAddress; Mle_UpdateLinkLocalAddress;
   Dtls_SetPsk aPSKd (to_uint8 (strlen aPSKd))].

(** The Joiner's fields with the broadcast PAN id for "no candidate". *)
Definition forget_candidate (j : Joiner) : Joiner :=
  {| mJoinerRouterChannel := mJoinerRouterChannel j;
     mJoinerRouterPanId := kPanIdBroadcast;
     mJoinerUdpPort_ := mJoinerUdpPort_ j;
     mJoinerRouter := mJoinerRouter j |}.

(** Two calls of [Stop] in a row. *)
Definition Stop_twice : F ThreadError :=
  block (call Stop ;;; call Stop).

End Observations.

(** ** Scenarios on the reference platform *)

Module Scenario.
Import Reference.

(** With the identity AA:BB:CC:DD:EE:FF:00:11 and a bitmap of 16 bytes
    the CCITT checksum selects bit 70 and the ANSI checksum bit 44. *)
Definition bitmap_both : otSteeringData :=
  {| mLength := 16;
     sd_m8 := [0; 0; 0; 0; 0; 0; 0; 0x40; 0; 0; 0x10; 0; 0; 0; 0; 0] |}.

Definition bitmap_ccitt_only : otSteeringData :=
  {| mLength := 16;
     sd_m8 := [0; 0; 0; 0; 0; 0; 0; 0x40; 0; 0; 0; 0; 0; 0; 0; 0] |}.

Definition bitmap_empty : otSteeringData :=
  {| mLength := 0; sd_m8 := repeat 0 16 |}.

Definition router1 : ExtAddress := {| m8 := [2; 0; 0; 0; 0; 0; 0; 1] |}.
Definition router2 : ExtAddress := {| m8 := [2; 0; 0; 0; 0; 0; 0; 2] |}.

(** The result of the spec's end-to-end scenario. *)
Definition result1 : otActiveScanResult :=
  {| mExtAddress := router1; mSteeringData := bitmap_both;
     mJoinerUdpPort := 1000; mPanId := 0x1234; mChannel := 15 |}.

Definition result2 : otActiveScanResult :=
  {| mExtAddress := router2; mSteeringData := bitmap_both;
     mJoinerUdpPort := 2000; mPanId := 0x5678; mChannel := 20 |}.

Definition result_one_bit : otActiveScanResult :=
  {| mExtAddress := router2; mSteeringData := bitmap_ccitt_only;
     mJoinerUdpPort := 3000; mPanId := 0x9abc; mChannel := 25 |}.

Definition result_broadcast : otActiveScanResult :=
  {| mExtAddress := router2; mSteeringData := bitmap_both;
     mJoinerUdpPort := 2000; mPanId := 0xffff; mChannel := 20 |}.

Definition result_no_steering : otActiveScanResult :=
  {| mExtAddress := router1; mSteeringData := bitmap_empty;
     mJoinerUdpPort := 1000; mPanId := 0x1234; mChannel := 15 |}.

Definition masterKey_bytes : list Z :=
  [0x00; 0x11; 0x22; 0x33; 0x44; 0x55; 0x66; 0x77;
   0x88; 0x99; 0xaa; 0xbb; 0xcc; 0xdd; 0xee; 0xff].
Definition prefix_bytes : list Z := [0xfd; 0; 0x0d; 0xb8; 0; 0; 0; 0].
Definition extPanId_bytes : list Z := [0xde; 0xad; 0; 0xbe; 0xef; 0; 0xca; 0xfe].
Definition name_bytes : list Z := [0x6d; 0x65; 0x73; 0x68].
Definition timestamp_bytes : list Z := [0; 0; 0; 0; 0; 1; 0; 0].

Definition four_tlvs : Message :=
  [5; 16] ++ masterKey_bytes ++ [7; 8] ++ prefix_bytes ++
  [2; 8] ++ extPanId_bytes ++ [3; 4] ++ name_bytes.

(** An entrust payload with all five TLVs. *)
Definition entrust_payload : Message :=
  four_tlvs ++ [14; 8] ++ timestamp_bytes.

(** The same without the active timestamp. *)
Definition entrust_without_timestamp : Message := four_tlvs.

(** What the stack holds where the handlers' TLV locals are placed: a
    value array of the class's size, never written. *)
Definition stack (ty : TlvType) : Tlv :=
  {| GetLength := 0xcc;
     GetValue :=
       match ty with
       | kState => [0xcc]
       | kNetworkMasterKey => repeat 0xcc 16
       | kMeshLocalPrefix => repeat 0xcc 8
       | kExtendedPanId => repeat 0xcc 8
       | kNetworkName => repeat 0xcc 16
       | kActiveTimestamp => repeat 0xcc 8
       end |}.

Definition entrust_header : Header :=
  {| GetType := kCoapTypeConfirmable; GetCode := kCoapRequestPost;
     GetMessageId := 0x1234; GetToken := [7; 9] |}.

Definition entrust_header_non_confirmable : Header :=
  {| GetType := kCoapTypeNonConfirmable; GetCode := kCoapRequestPost;
     GetMessageId := 0x1234; GetToken := [7; 9] |}.

Definition entrust_info : MessageInfo :=
  {| mSockAddr := [0xfe; 0x80; 0; 0; 0; 0; 0; 0; 0; 0; 0; 0; 0; 0; 0; 1];
     mPeerAddr := [0xfe; 0x80; 0; 0; 0; 0; 0; 0; 0; 0; 0; 0; 0; 0; 0; 2];
     mSockPort := 61631; mPeerPort := 61631; mInterfaceId := 1 |}.

(** A finalize response: acknowledgment, "changed", State TLV accept. *)
Definition finalize_header : Header :=
  {| GetType := kCoapTypeAcknowledgment; GetCode := kCoapResponseChanged;
     GetMessageId := 0x4321; GetToken := [1; 2] |}.
Definition finalize_payload : Message := [16; 1; 1].

(** The channel and the filter while a session is under way. *)
Definition session_open : Net :=
  {| secure_channel_open := true; unsecure_ports := {[ 49191 ]} |}.

Definition out_of_buffers : ThreadNetif :=
  netif kThreadError_None kThreadError_None false kThreadError_None.

Definition discovery_refused : ThreadNetif :=
  netif kThreadError_None (kThreadError_Other 5) true kThreadError_None.

End Scenario.

(** ** The rest of joiner.cpp: the identity-rotation timer *)

(** [otPlatRandomGet] (platform/random.h): [otPlatRandomGet_returns i] is
    what the [i]-th call made by a handler gives back, counted from 0. *)
Class PlatformRandom : Type := {
  otPlatRandomGet_returns : nat -> Z
}.

Section TimerCode.
Context {random : PlatformRandom}.

(** The loop of [HandleTimer] over the bytes of the local [extAddress]:
    [n] iterations are left and [i] is the index. *)
Fixpoint random_loop (n : nat) (i : nat) (extAddress : ExtAddress) : ExtAddress :=
  match n with
  | O => extAddress
  | S n' =>
      random_loop n' (S i)
        {| m8 := <[i := to_uint8 (otPlatRandomGet_returns i)]> (m8 extAddress) |}
  end.

(** [Joiner::HandleTimer]; [uninitialised] is what the local [extAddress]
    holds when the function is entered. *)
Definition HandleTimer (uninitialised : ExtAddress) : F unit :=
  block
    (let extAddress := random_loop sizeof_ExtAddress 0 uninitialised in
     emit (Mac_SetExtAddress extAddress) ;;;
     emit Mle_UpdateLinkLocalAddress).

End TimerCode.

(** ** The rest of joiner.cpp: the finalize request

    [SendJoinerFinalize] reads and writes no field of the Joiner and
    cannot go wrong; it is a sequence of calls on the secured CoAP client
    and on the message it obtains from it. *)

Module Finalize.

(** The calls that build the request header. *)
Inductive HeaderOp : Type :=
| Init (aType : CoapType) (aCode : CoapCode)
| AppendUriPathOptions (aUriPath : string)
| SetPayloadMarker.

(** [MeshCoP::StateTlv::State] *)
Inductive State : Type := kAccept | kReject.

(** The objects [SendJoinerFinalize] appends to the message. *)
Inductive Appended : Type :=
| stateTlv (aState : State)
| mProvisioningUrl.

Inductive Event : Type :=
| SecureCoapClient_NewMessage (header : list HeaderOp)
| Message_Append (what : Appended) (aLength : Z)
| SecureCoapClient_SendMessage (message : list Appended)
| Message_Free.

#[global] Instance HeaderOp_eq_dec : EqDecision HeaderOp.
Proof. solve_decision. Defined.

#[global] Instance State_eq_dec : EqDecision State.
Proof. solve_decision. Defined.

#[global] Instance Appended_eq_dec : EqDecision Appended.
Proof. solve_decision. Defined.

#[global] Instance Event_eq_dec : EqDecision Event.
Proof. solve_decision. Defined.

(** What the secured CoAP client, its DTLS object and the message answer,
    and the constants of the build. *)
Class SecureCoapClient : Type := {
  OPENTHREAD_URI_JOINER_FINALIZE : string;
  (** [false]: [NewMessage] gave [NULL] *)
  NewMessage_returns : list HeaderOp -> bool;
  Append_returns : Appended -> Z -> ThreadError;
  mProvisioningUrl_GetLength : Z;
  sizeof_stateTlv : Z;
  sizeof_TlvHeader : Z;
  OPENTHREAD_ENABLE_CERT_LOG : bool;
  Message_GetLength : list Appended -> Z;
  OPENTHREAD_CONFIG_MESSAGE_BUFFER_SIZE : Z
}.

(** A statement goes on with a value or jumps to [exit:]; either way the
    calls made so far are kept. *)
Inductive Step (E A : Type) : Type :=
| Go (a : A) (log : list Event)
| Jump (e : E) (log : list Event).
Arguments Go {E A} a log.
Arguments Jump {E A} e log.

Definition W (E A : Type) : Type := list Event -> Step E A.

Definition pure {E A} (a : A) : W E A := fun log => Go a log.

Definition and_then {E A B} (m : W E A) (k : A -> W E B) : W E B :=
  fun log =>
    match m log with
    | Go a log' => k a log'
    | Jump e log' => Jump e log'
    end.

Notation "x <~ m ;; k" := (and_then m (fun x => k))
  (at level 90, m at level 80, right associativity).
Notation "m ~;; k" := (and_then m (fun _ => k))
  (at level 90, right associativity).

Definition jump {E A} (e : E) : W E A := fun log => Jump e log.

Definition record {E} (ev : Event) : W E unit :=
  fun log => Go tt (log ++ [ev]).

Definition ask {E A} (ev : Event) (answer : A) : W E A :=
  record ev ~;; pure answer.

(** [VerifyOrExit(cond, action)] *)
Definition verify_or_exit {E} (cond : bool) (e : E) : W E unit :=
  if cond then pure tt else jump e.

(** [SuccessOrExit(status)] *)
Definition success_or_exit {E} (status : ThreadError) (e : E) : W E unit :=
  if bool_decide (status = kThreadError_None) then pure tt else jump e.

(** The calls of a function: its body, then the code at [exit:]. *)
Definition events_of {E} (body : W E E) (at_exit : E -> W Empty_set unit)
  : list Event :=
  let finish (e : E) (log : list Event) :=
    match at_exit e log with
    | Go _ log' => log'
    | Jump x _ => match x with end
    end in
  match body [] with
  | Go e log => finish e log
  | Jump e log => finish e log
  end.

Section FinalizeCode.
Context {mSecureCoapClient : SecureCoapClient}.

(** [Joiner::SendJoinerFinalize], as the calls it makes.  [exit:] is
    reached with the local [error] and with whether [message] is non-null;
    [content] is what the message holds after the appends. *)
Definition SendJoinerFinalize : list Event :=
  events_of
    (let header := [Init kCoapTypeConfirmable kCoapRequestPost;
                    AppendUriPathOptions OPENTHREAD_URI_JOINER_FINALIZE;
                    SetPayloadMarker] in
     message <~ ask (SecureCoapClient_NewMessage header)
                    (NewMessage_returns header) ;;
     verify_or_exit message (kThreadError_NoBufs, false) ~;;
     error <~ ask (Message_Append (stateTlv kAccept) sizeof_stateTlv)
                  (Append_returns (stateTlv kAccept) sizeof_stateTlv) ;;
     success_or_exit error (error, true) ~;;
     let length := mProvisioningUrl_GetLength in
     r <~ (if 0 <? length then
             error <~ ask (Message_Append mProvisioningUrl (length + sizeof_TlvHeader))
                          (Append_returns mProvisioningUrl (length + sizeof_TlvHeader)) ;;
             success_or_exit error (error, true) ~;;
             pure (error, [stateTlv kAccept; mProvisioningUrl])
           else pure (error, [stateTlv kAccept])) ;;
     let '(error, content) := r in
     (if OPENTHREAD_ENABLE_CERT_LOG then
        verify_or_exit
          (Message_GetLength content <=? OPENTHREAD_CONFIG_MESSAGE_BUFFER_SIZE)
          (error, true)
      else pure tt) ~;;
     record (SecureCoapClient_SendMessage content) ~;;
     pure (error, true))
    (fun '(error, message) =>
       if negb (bool_decide (error = kThreadError_None)) && message
       then record Message_Free
       else pure tt).

(** [Joiner::HandleSecureCoapClientConnect] *)
Definition HandleSecureCoapClientConnect : list Event := SendJoinerFinalize.

(** The header of the finalize request. *)
Definition request_header : list HeaderOp :=
  [Init kCoapTypeConfirmable kCoapRequestPost;
   AppendUriPathOptions OPENTHREAD_URI_JOINER_FINALIZE;
   SetPayloadMarker].

(** A provisioning URL is configured. *)
Definition has_url : bool := 0 <? mProvisioningUrl_GetLength.

(** What the request carries. *)
Definition request_content : list Appended :=
  if has_url then [stateTlv kAccept; mProvisioningUrl] else [stateTlv kAccept].

(** Every append the function makes is accepted. *)
Definition appends_accepted : bool :=
  bool_decide (Append_returns (stateTlv kAccept) sizeof_stateTlv = kThreadError_None) &&
  (negb has_url ||
   bool_decide (Append_returns mProvisioningUrl
                  (mProvisioningUrl_GetLength + sizeof_TlvHeader) = kThreadError_None)).

(** The certification log is compiled out, or the message fits its buffer. *)
Definition fits_cert_log : bool :=
  negb OPENTHREAD_ENABLE_CERT_LOG ||
  (Message_GetLength request_content <=? OPENTHREAD_CONFIG_MESSAGE_BUFFER_SIZE).

Definition is_Send (ev : Event) : bool :=
  match ev with
  | SecureCoapClient_SendMessage _ => true
  | _ => false
  end.

End FinalizeCode.

(** A secured client with a provisioning URL of [urlLength] bytes whose
    message takes [messageLength] bytes. *)
Definition client (newMessage : bool) (appendState appendUrl : ThreadError)
    (urlLength : Z) (certLog : bool) (messageLength : Z) : SecureCoapClient :=
  {| OPENTHREAD_URI_JOINER_FINALIZE := "c/jf";
     NewMessage_returns := fun _ => newMessage;
     Append_returns := fun what _ =>
       match what with
       | stateTlv _ => appendState
       | mProvisioningUrl => appendUrl
       end;
     mProvisioningUrl_GetLength := urlLength;
     sizeof_stateTlv := 3;
     sizeof_TlvHeader := 2;
     OPENTHREAD_ENABLE_CERT_LOG := certLog;
     Message_GetLength := fun _ => messageLength;
     OPENTHREAD_CONFIG_MESSAGE_BUFFER_SIZE := 128 |}.

End Finalize.

(** ** Handlers one after another *)

Section Sequences.
Context {crc16 : Crc16Lib} {tlvs : MeshCoPTlvs} {mNetif : ThreadNetif}.

(** [Start], then the callbacks of the scan it asked for and the terminal
    event; the value is what [Start] returned. *)
Definition Start_then_scan (aPSKd : string) (aProvisioningUrl : option string)
    (results : list otActiveScanResult) : F ThreadError :=
  block
    (error <- call (Start aPSKd aProvisioningUrl) ;;
     call (Discovery (map Some results ++ [None])) ;;;
     ret error).

(** A scan with its terminal event, then the finalize response. *)
Definition Scan_then_response (results : list otActiveScanResult)
    (aHeader : option Header) (aMessage : option Message)
    (aResult : ThreadError) (uninitialised : Tlv) : F unit :=
  block
    (call (Discovery (map Some results ++ [None])) ;;;
     call (HandleJoinerFinalizeResponse aHeader aMessage aResult uninitialised)).

(** A scan with its terminal event, then [Stop]. *)
Definition Scan_then_Stop (results : list otActiveScanResult) : F ThreadError :=
  block
    (call (Discovery (map Some results ++ [None])) ;;;
     call Stop).

End Sequences.

(** More inputs for the reference platform. *)
Module MoreScenarios.

(** A pre-shared key of 256 characters. *)
Definition long_psk : string := Nat.iter 256 (String.append "a") EmptyString.

Definition counter : PlatformRandom :=
  {| otPlatRandomGet_returns := fun i => 0x12345600 + 37 * Z.of_nat i |}.

Definition stack_garbage : ExtAddress := {| m8 := [9; 9; 9; 9; 9; 9; 9; 9] |}.

(** A Joiner that still holds the candidate of an earlier attempt. *)
Definition stale : Joiner :=
  {| mJoinerRouterChannel := 11; mJoinerRouterPanId := 0xface;
     mJoinerUdpPort_ := 4000; mJoinerRouter := {| m8 := [2; 0; 0; 0; 0; 0; 0; 9] |} |}.

End MoreScenarios.

(** ** Closing the session *)

Section ClosingProperties.
Context {crc16 : Crc16Lib} {tlvs : MeshCoPTlvs} {mNetif : ThreadNetif}.

Lemma Close_on (s : Store) :
  Close s = Returns tt {| self := self s; calls := calls s ++ close_calls |}.
Proof.
  unfold Close, block, bind, emit, close_calls; cbn.
  now rewrite <- app_assoc.
Qed.

Lemma Stop_on (s : Store) :
  Stop s = Returns kThreadError_None
             {| self := self s; calls := calls s ++ close_calls |}.
Proof.
  unfold Stop, block, bind, call, ret. now rewrite Close_on.
Qed.

Lemma block_call_Close (s : Store) : block (call Close) s = Close s.
Proof. unfold block, call. now rewrite Close_on. Qed.

(** The body of the finalize-response handler touches nothing before it
    reaches [exit:]. *)
Lemma finalize_body_reaches_exit aHeader aMessage aResult uninitialised
    (s : Store) :
  (aResult = kThreadError_None -> is_Some aHeader /\ is_Some aMessage) ->
  HandleJoinerFinalizeResponse aHeader aMessage aResult uninitialised s = Close s.
Proof.
  intros Hptr. rewrite <- block_call_Close.
  unfold HandleJoinerFinalizeResponse, with_exit, bind,
    VerifyOrExit, SuccessOrExit, deref, ret, goto_exit.
  case_bool_decide as Hres; cbn; [|reflexivity].
  destruct (Hptr Hres) as [[h ->] [m ->]]; cbn.
  destruct (bool_decide _ && bool_decide _); cbn; [|reflexivity].
  destruct (Tlv_GetTlv m kState (sizeof_Tlv kState) uninitialised)
    as [status state].
  case_bool_decide; cbn; [|reflexivity].
  now destruct (Tlv_IsValid kState state).
Qed.

(** C4.  Whatever the finalize response is (accepted, rejected, of the
    wrong type or code, without a valid State TLV, or a transport error),
    [HandleJoinerFinalizeResponse] leaves the Joiner's fields alone and
    makes exactly the two calls of [Close]: it disconnects the secured
    channel and removes the unsecure-port exception.  After them the
    channel is closed and the exception is gone, whatever they were
    before. *)
Theorem HandleJoinerFinalizeResponse_always_closes
    aHeader aMessage aResult (uninitialised : Tlv) (j : Joiner) :
  (aResult = kThreadError_None -> is_Some aHeader /\ is_Some aMessage) ->
  run (HandleJoinerFinalizeResponse aHeader aMessage aResult uninitialised) j =
    Returns tt {| self := j; calls := close_calls |}
  /\ forall n : Net,
       secure_channel_open (replay effect close_calls n) = false /\
       SecureCoapClient_GetPort ∉ unsecure_ports (replay effect close_calls n).
Proof.
  intros Hptr. split.
  - unfold run. rewrite finalize_body_reaches_exit by assumption.
    now rewrite Close_on.
  - intros n. cbn. split; [reflexivity|].
    intros [_ Hout]%elem_of_difference. apply Hout. now apply elem_of_singleton.
Qed.

(** C8, as the code has it.  [Stop] never fails and never touches the
    Joiner's fields, and it makes the two calls of [Close] every time: a
    second [Stop] disconnects and removes the port again.  The state of
    the collaborators after two [Stop]s is that after one whenever
    disconnecting and removing the port are idempotent and commute. *)
Theorem Stop_twice_repeats_close (j : Joiner) :
  run Stop j = Returns kThreadError_None {| self := j; calls := close_calls |}
  /\ run Stop_twice j =
       Returns kThreadError_None
         {| self := j; calls := close_calls ++ close_calls |}
  /\ forall (W : Type) (eff : Call -> W -> W),
       let disconnect := eff SecureCoapClient_Disconnect in
       let remove := eff (Ip6Filter_RemoveUnsecurePort SecureCoapClient_GetPort) in
       (forall w, disconnect (disconnect w) = disconnect w) ->
       (forall w, remove (remove w) = remove w) ->
       (forall w, disconnect (remove w) = remove (disconnect w)) ->
       forall w, replay eff (close_calls ++ close_calls) w =
                 replay eff close_calls w.
Proof.
  split; [|split].
  - unfold run. now rewrite Stop_on.
  - unfold run, Stop_twice, block, bind, call.
    rewrite Stop_on; cbv beta iota. now rewrite Stop_on.
  - intros W eff disconnect remove Hd Hr Hc w. cbn.
    fold disconnect remove. now rewrite Hc, Hd, Hr.
Qed.

End ClosingProperties.

(** ** The entrust handler *)

Section EntrustProperties.
Context {crc16 : Crc16Lib} {tlvs : MeshCoPTlvs} {mNetif : ThreadNetif}.

Lemma SendJoinerEntrustResponse_on aRequestHeader aRequestInfo (s : Store) :
  SendJoinerEntrustResponse aRequestHeader aRequestInfo s =
    Returns tt {| self := self s;
                  calls := calls s ++ response_calls aRequestHeader aRequestInfo |}.
Proof.
  unfold SendJoinerEntrustResponse, response_calls, response_bytes,
    response_info, with_exit, bind, invoke, VerifyOrExit, SuccessOrExit,
    block, emit, ret, goto_exit, bind.
  destruct (CoapServer_NewMessage_returns 0); cbn; [|reflexivity].
  repeat (case_bool_decide; cbn); try congruence;
    now rewrite <- ?app_assoc.
Qed.

(** What [HandleJoinerEntrust] does, in one equation: it acts only on a
    confirmable POST whose five TLVs are all present and valid. *)
Lemma HandleJoinerEntrust_on aHeader aMessage aMessageInfo locals (s : Store) :
  HandleJoinerEntrust aHeader aMessage aMessageInfo locals s =
    Returns tt
      (if confirmable_post aHeader &&
          forallb (tlv_ok aMessage locals) entrust_tlvs
       then {| self := self s;
               calls := calls s ++ credential_calls aMessage locals ++
                        response_calls aHeader aMessageInfo ++
                        [Timer_Start kConfigExtAddressDelay] |}
       else s).
Proof.
  unfold HandleJoinerEntrust, credential_calls, confirmable_post, with_exit,
    bind, VerifyOrExit. cbn [forallb entrust_tlvs].
  unfold tlv_ok, fetched.
  destruct (bool_decide _ && bool_decide (GetCode aHeader = _));
    cbn [andb]; [|reflexivity].
  repeat lazymatch goal with
  | |- context [Tlv_GetTlv aMessage ?ty (sizeof_Tlv ?ty) (locals ?ty)] =>
      destruct (Tlv_GetTlv aMessage ty (sizeof_Tlv ty) (locals ty)) as [? ?];
      cbn [fst snd]; unfold SuccessOrExit at 1;
      case_bool_decide; cbn [andb]; [|reflexivity];
      match goal with
      | |- context [Tlv_IsValid ty ?t] =>
          destruct (Tlv_IsValid ty t); cbn [andb]; [|reflexivity]
      end
  end.
  unfold call, emit, ret, block; cbn.
  rewrite SendJoinerEntrustResponse_on; cbn.
  now rewrite <- !app_assoc.
Qed.

(** C7.  An entrust request that is not a confirmable POST is dropped:
    the Joiner's fields stay as they were and no call is made on any
    collaborator, so no response is sent, no credential is applied and
    no timer is armed. *)
Theorem HandleJoinerEntrust_drops_other_requests
    aHeader aMessage aMessageInfo (locals : TlvType -> Tlv) (j : Joiner) :
  GetType aHeader <> kCoapTypeConfirmable \/ GetCode aHeader <> kCoapRequestPost ->
  run (HandleJoinerEntrust aHeader aMessage aMessageInfo locals) j =
    Returns tt {| self := j; calls := [] |}.
Proof.
  intros Hbad. unfold run. rewrite HandleJoinerEntrust_on.
  replace (confirmable_post aHeader) with false; [reflexivity|].
  unfold confirmable_post.
  destruct Hbad as [Hty | Hcode].
  - now rewrite (bool_decide_eq_false_2 _ Hty).
  - rewrite (bool_decide_eq_false_2 _ Hcode). now rewrite andb_false_r.
Qed.

(** C2.  If one of the five required TLVs is missing or fails its
    validity predicate, whichever it is, [HandleJoinerEntrust] makes no
    call on any collaborator and leaves the Joiner's fields as they were:
    no credential store is touched, no response is sent, no timer is
    armed. *)
Theorem HandleJoinerEntrust_all_or_nothing
    aHeader aMessage aMessageInfo (locals : TlvType -> Tlv) (j : Joiner)
    (ty : TlvType) :
  In ty entrust_tlvs ->
  tlv_ok aMessage locals ty = false ->
  run (HandleJoinerEntrust aHeader aMessage aMessageInfo locals) j =
    Returns tt {| self := j; calls := [] |}.
Proof.
  intros Hin Hbad. unfold run. rewrite HandleJoinerEntrust_on.
  replace (forallb (tlv_ok aMessage locals) entrust_tlvs) with false.
  - now rewrite andb_false_r.
  - symmetry. apply not_true_is_false. intros Hall.
    rewrite forallb_forall in Hall. specialize (Hall ty Hin). congruence.
Qed.

(** C3, as the code has it.  On a confirmable POST whose five TLVs are
    all present and valid, [HandleJoinerEntrust] calls four credential
    setters, in this order, each with a pointer into the local variable
    that [Tlv::GetTlv] filled: the master key (with the TLV's length), the
    mesh-local prefix, the extended PAN id and the network name.  What a
    setter sees is the value array of that local as [Tlv::GetTlv] left it,
    which depends on what the local held before wherever [Tlv::GetTlv]
    did not write.  The active timestamp is checked and handed to no one.
    The handler then attempts one acknowledgment and arms the timer with
    [kConfigExtAddressDelay] whether or not the acknowledgment went out;
    it goes out, once, when the buffer allocation, the append and the
    send succeed. *)
Theorem HandleJoinerEntrust_installs_four_and_acknowledges
    aHeader aMessage aMessageInfo (locals : TlvType -> Tlv) (j : Joiner) :
  GetType aHeader = kCoapTypeConfirmable ->
  GetCode aHeader = kCoapRequestPost ->
  (forall ty, In ty entrust_tlvs -> tlv_ok aMessage locals ty = true) ->
  let masterKey := fetched aMessage locals kNetworkMasterKey in
  let meshLocalPrefix := fetched aMessage locals kMeshLocalPrefix in
  let extendedPanId := fetched aMessage locals kExtendedPanId in
  let networkName := fetched aMessage locals kNetworkName in
  let out := [KeyManager_SetMasterKey (GetValue masterKey) (GetLength masterKey);
              Mle_SetMeshLocalPrefix (GetValue meshLocalPrefix);
              Mac_SetExtendedPanId (GetValue extendedPanId);
              Mac_SetNetworkName (GetValue networkName)] ++
             response_calls aHeader aMessageInfo ++
             [Timer_Start kConfigExtAddressDelay] in
  run (HandleJoinerEntrust aHeader aMessage aMessageInfo locals) j =
    Returns tt {| self := j; calls := out |}
  /\ map installs out =
       [Some kNetworkMasterKey; Some kMeshLocalPrefix; Some kExtendedPanId;
        Some kNetworkName] ++
       map (fun _ => None) (response_calls aHeader aMessageInfo) ++ [None]
  /\ (response_goes_out aHeader aMessageInfo = true ->
      response_calls aHeader aMessageInfo =
        [CoapServer_NewMessage 0; Message_SetSubType_JoinerEntrust;
         Message_Append (response_bytes aHeader);
         CoapServer_SendMessage (response_bytes aHeader)
                                (response_info aMessageInfo)])
  /\ (response_goes_out aHeader aMessageInfo = false ->
      forall m i, In (CoapServer_SendMessage m i) out ->
                  CoapServer_SendMessage_returns m i <> kThreadError_None).
Proof.
  intros Hty Hcode Hall masterKey meshLocalPrefix extendedPanId networkName out.
  split; [|split; [|split]].
  - unfold run. rewrite HandleJoinerEntrust_on.
    replace (confirmable_post aHeader) with true.
    + replace (forallb (tlv_ok aMessage locals) entrust_tlvs) with true;
        [reflexivity|].
      symmetry. now apply forallb_forall.
    + unfold confirmable_post. now rewrite !bool_decide_eq_true_2.
  - subst out. unfold response_calls.
    repeat (destruct (negb _); [reflexivity|]). reflexivity.
  - unfold response_goes_out, response_calls.
    fold (response_bytes aHeader) (response_info aMessageInfo).
    intros [[-> ->]%andb_true_iff ->]%andb_true_iff. reflexivity.
  - unfold response_goes_out. subst out. unfold response_calls.
    fold (response_bytes aHeader) (response_info aMessageInfo).
    intros Hgo m i Hin.
    destruct (CoapServer_NewMessage_returns 0); cbn in Hgo, Hin.
    + case_bool_decide as Happ; cbn in Hgo, Hin.
      * case_bool_decide as Hsend; [discriminate|]. cbn in Hin.
        repeat (destruct Hin as [Hin|Hin]; [try discriminate|]); [|contradiction].
        now inversion Hin; subst.
      * repeat (destruct Hin as [Hin|Hin]; [discriminate|]). contradiction.
    + repeat (destruct Hin as [Hin|Hin]; [discriminate|]). contradiction.
Qed.

End EntrustProperties.

(** ** Discovery *)

Section DiscoveryProperties.
Context {crc16 : Crc16Lib} {tlvs : MeshCoPTlvs} {mNetif : ThreadNetif}.

(** The loop feeds the bytes at indices [i .. i+n-1] to both checksums. *)
Lemma crc_loop_folds (n i : nat) (a : ExtAddress) (ccitt ansi : Crc16) :
  crc_loop n i a ccitt ansi =
    (fold_left Crc16_Update (map (fun k => nth k (m8 a) 0) (seq i n)) ccitt,
     fold_left Crc16_Update (map (fun k => nth k (m8 a) 0) (seq i n)) ansi).
Proof.
  revert i ccitt ansi.
  induction n as [|n IH]; intros i ccitt ansi; cbn [crc_loop seq map fold_left].
  - reflexivity.
  - apply IH.
Qed.

Lemma GetNumBits_positive (sd : otSteeringData) :
  0 < mLength sd ->
  (SteeringDataTlv_GetNumBits (copy_steering_data sd) =? 0) = false.
Proof.
  intros Hlen. unfold SteeringDataTlv_GetNumBits, copy_steering_data; cbn.
  apply Z.eqb_neq. lia.
Qed.

(** A scan result with a non-empty bitmap: the candidate is overwritten
    exactly when both bits are set, and nothing else happens. *)
Lemma HandleDiscoverResult_result (r : otActiveScanResult) (s : Store) :
  0 < mLength (mSteeringData r) ->
  HandleDiscoverResult (Some r) s =
    Returns tt {| self := if steering_match r then candidate_of r else self s;
                  calls := calls s |}.
Proof.
  intros Hlen.
  unfold HandleDiscoverResult, steering_match, steering_bit, Crc16_of,
    identity_bytes, block.
  rewrite crc_loop_folds.
  unfold bind, c_mod. rewrite (GetNumBits_positive _ Hlen).
  unfold ret at 1. cbv beta iota.
  destruct (SteeringDataTlv_GetBit _ _); cbn [andb].
  - unfold ret at 1. cbv beta iota.
    destruct (SteeringDataTlv_GetBit _ _); cbn; [reflexivity|].
    now destruct s.
  - cbn. now destruct s.
Qed.

(** The end of the scan: the Joiner turns to its candidate unless the
    recorded PAN id is the broadcast one. *)
Lemma HandleDiscoverResult_end (s : Store) :
  HandleDiscoverResult None s =
    Returns tt {| self := self s;
                  calls := calls s ++
                           if mJoinerRouterPanId (self s) =? kPanIdBroadcast
                           then [] else connect_calls (self s) |}.
Proof.
  unfold HandleDiscoverResult, block, bind, get_self, connect_calls, peer_info.
  destruct (mJoinerRouterPanId (self s) =? kPanIdBroadcast); cbn.
  - rewrite app_nil_r. now destruct s.
  - now rewrite <- !app_assoc.
Qed.

Lemma Discovery_cons e rest (s s' : Store) :
  HandleDiscoverResult e s = Returns tt s' ->
  Discovery (e :: rest) s = Discovery rest s'.
Proof.
  intros He. cbn [Discovery]. unfold block, bind, call. rewrite He.
  now destruct (Discovery rest s').
Qed.

Lemma Discovery_undefined e rest (s : Store) u :
  HandleDiscoverResult e s = Undefined u ->
  Discovery (e :: rest) s = Undefined u.
Proof.
  intros He. cbn [Discovery]. unfold block, bind, call. now rewrite He.
Qed.

Lemma last_match_cons r rs :
  last_match (r :: rs) =
    match last_match rs with
    | Some r' => Some r'
    | None => if steering_match r then Some r else None
    end.
Proof.
  unfold last_match. cbn [List.filter].
  destruct (steering_match r); [|now destruct (last _)].
  apply last_cons.
Qed.

(** The results of a scan, all with non-empty bitmaps, leave the fields
    of the last one that matched, or the old fields if none did. *)
Lemma Discovery_results (rs : list otActiveScanResult) (s : Store) :
  Forall (fun r => 0 < mLength (mSteeringData r)) rs ->
  Discovery (map Some rs) s =
    Returns tt {| self := match last_match rs with
                          | Some r => candidate_of r
                          | None => self s
                          end;
                  calls := calls s |}.
Proof.
  intros Hrs. revert s.
  induction Hrs as [|r rs Hr _ IH]; intros s.
  - cbn. now destruct s.
  - cbn [map]. rewrite (Discovery_cons _ _ _ _ (HandleDiscoverResult_result r s Hr)).
    rewrite IH, last_match_cons. cbn [self calls].
    now destruct (last_match rs), (steering_match r).
Qed.

Lemma Discovery_app es1 es2 (s s' : Store) :
  Discovery es1 s = Returns tt s' ->
  Discovery (es1 ++ es2) s = Discovery es2 s'.
Proof.
  revert s. induction es1 as [|e es1 IH]; intros s.
  - cbn. intros [= ->]. reflexivity.
  - cbn [app]. destruct (HandleDiscoverResult e s) as [[] s1|u] eqn:He.
    + rewrite !(Discovery_cons _ _ _ _ He). apply IH.
    + rewrite (Discovery_undefined _ _ _ _ He). discriminate.
Qed.

(** A whole scan: results, then the terminal event. *)
Lemma Discovery_scan (rs : list otActiveScanResult) (j : Joiner) :
  Forall (fun r => 0 < mLength (mSteeringData r)) rs ->
  let j' := match last_match rs with
            | Some r => candidate_of r
            | None => j
            end in
  run (Discovery (map Some rs ++ [None])) j =
    Returns tt {| self := j';
                  calls := if mJoinerRouterPanId j' =? kPanIdBroadcast
                           then [] else connect_calls j' |}.
Proof.
  intros Hrs j'. unfold run.
  rewrite (Discovery_app _ _ _ _ (Discovery_results rs _ Hrs)).
  rewrite (Discovery_cons _ _ _ _ (HandleDiscoverResult_end _)).
  reflexivity.
Qed.

(** For an address of eight bytes the loop reads the address itself. *)
Lemma identity_bytes_eight (a : ExtAddress) :
  List.length (m8 a) = 8%nat -> identity_bytes a = m8 a.
Proof.
  destruct a as [l]; cbn [m8]. intros Hlen.
  do 9 (destruct l as [|? l]; try discriminate Hlen).
  reflexivity.
Qed.

(** C1, at the input where the code fails it.  A scan result whose
    steering bitmap has length 0 is not turned away: the handler computes
    the first bit index modulo the bitmap's bit length, which is 0. *)
Theorem HandleDiscoverResult_empty_bitmap_divides_by_zero
    (r : otActiveScanResult) (j : Joiner) :
  mLength (mSteeringData r) = 0 ->
  run (HandleDiscoverResult (Some r)) j = Undefined DivisionByZero.
Proof.
  intros Hlen.
  unfold run, HandleDiscoverResult, block.
  destruct (crc_loop _ _ _ _ _) as [ccitt ansi].
  unfold bind, c_mod, SteeringDataTlv_GetNumBits, copy_steering_data.
  cbn [GetLength]. rewrite Hlen. reflexivity.
Qed.

(** C5.  For a scan result with a non-empty bitmap, the Joiner takes the
    result as its candidate if and only if both bits are set: the bit at
    index (CCITT checksum of the hashed address mod bit length) and the
    bit at index (ANSI checksum mod bit length).  With both set the
    candidate is overwritten; with only one, or none, set the Joiner is
    left as it was.  No call is made either way. *)
Theorem steering_match_needs_both_bits (r : otActiveScanResult) (j : Joiner) :
  0 < mLength (mSteeringData r) ->
  let bitmap := copy_steering_data (mSteeringData r) in
  let numBits := SteeringDataTlv_GetNumBits bitmap in
  let bitA := SteeringDataTlv_GetBit bitmap
                (Crc16_of kCcitt Mac_GetHashMacAddress mod numBits) in
  let bitB := SteeringDataTlv_GetBit bitmap
                (Crc16_of kAnsi Mac_GetHashMacAddress mod numBits) in
  (bitA = true /\ bitB = true ->
   run (HandleDiscoverResult (Some r)) j =
     Returns tt {| self := candidate_of r; calls := [] |})
  /\ (bitA = false \/ bitB = false ->
      run (HandleDiscoverResult (Some r)) j =
        Returns tt {| self := j; calls := [] |}).
Proof.
  intros Hlen bitmap numBits bitA bitB. unfold run.
  rewrite (HandleDiscoverResult_result r _ Hlen).
  unfold steering_match, steering_bit.
  fold bitmap. fold numBits. fold bitA bitB. cbn [self calls].
  split.
  - now intros [-> ->].
  - intros [-> | ->]; [reflexivity|]. now rewrite andb_false_r.
Qed.

(** X11.  Feed a scan whose results all carry non-empty bitmaps, among
    them an earlier and a later steering match with no match after the
    later one, and then the terminal event.  The candidate the Joiner
    holds at the terminal event is the later match: its UDP port, PAN id,
    channel and extended address; the Joiner turns to it unless its PAN
    id is the broadcast one. *)
Theorem Discovery_last_match_wins
    (before between after : list otActiveScanResult)
    (earlier later : otActiveScanResult) (j : Joiner) :
  let results := before ++ [earlier] ++ between ++ [later] ++ after in
  Forall (fun r => 0 < mLength (mSteeringData r)) results ->
  steering_match earlier = true ->
  steering_match later = true ->
  Forall (fun r => steering_match r = false) after ->
  run (Discovery (map Some results)) j =
    Returns tt {| self := candidate_of later; calls := [] |}
  /\ run (Discovery (map Some results ++ [None])) j =
       Returns tt
         {| self := candidate_of later;
            calls := if mPanId later =? kPanIdBroadcast then []
                     else [Mac_SetPanId (mPanId later);
                           Mac_SetChannel (mChannel later);
                           Ip6Filter_AddUnsecurePort SecureCoapClient_GetPort;
                           SecureCoapClient_Connect
                             (peer_info (candidate_of later))] |}.
Proof.
  intros results Hrs _ Hlater Hafter.
  assert (Hlast : last_match results = Some later).
  { unfold last_match, results.
    rewrite !List.filter_app. cbn [List.filter]. rewrite Hlater.
    replace (List.filter steering_match after) with (@nil otActiveScanResult).
    - rewrite app_nil_r, !app_assoc. apply last_snoc.
    - symmetry. clear -Hafter.
      induction Hafter as [|r rs Hr _ IH]; [reflexivity|].
      cbn. now rewrite Hr. }
  split.
  - unfold run. rewrite (Discovery_results _ _ Hrs), Hlast. reflexivity.
  - rewrite (Discovery_scan _ j Hrs), Hlast. reflexivity.
Qed.

(** C6, at the inputs where the code fails it.  A scan in which a result
    with a bitmap of length 0 follows results with non-empty bitmaps, be
    there two or more steering matches among them, retains no candidate:
    the callback for that result divides by zero, and what the terminal
    event then finds is not defined. *)
Theorem Discovery_empty_bitmap_loses_the_match
    (before : list otActiveScanResult) (empty : otActiveScanResult)
    (after : list (option otActiveScanResult)) (j : Joiner) :
  Forall (fun r => 0 < mLength (mSteeringData r)) before ->
  mLength (mSteeringData empty) = 0 ->
  run (Discovery (map Some before ++ Some empty :: after)) j =
    Undefined DivisionByZero.
Proof.
  intros Hbefore Hempty. unfold run.
  rewrite (Discovery_app _ _ _ _ (Discovery_results before _ Hbefore)).
  apply Discovery_undefined.
  unfold HandleDiscoverResult, block.
  destruct (crc_loop _ _ _ _ _) as [ccitt ansi].
  unfold bind, c_mod, SteeringDataTlv_GetNumBits, copy_steering_data.
  cbn [GetLength]. rewrite Hempty. reflexivity.
Qed.

(** C9, as the code has it.  If the last steering match of a scan whose
    results carry non-empty bitmaps has the broadcast PAN id (0xffff),
    then at the terminal event the Joiner makes no call at all: it does
    not reprogram the radio, opens no unsecure port and does not connect.
    A scan without any match, on a Joiner whose recorded PAN id is the
    broadcast one as [Start] leaves it, ends in the same way. *)
Theorem broadcast_panid_candidate_is_not_joined
    (rs : list otActiveScanResult) (r : otActiveScanResult) (j : Joiner) :
  Forall (fun r => 0 < mLength (mSteeringData r)) rs ->
  last_match rs = Some r ->
  mPanId r = kPanIdBroadcast ->
  run (Discovery (map Some rs ++ [None])) j =
    Returns tt {| self := candidate_of r; calls := [] |}
  /\ forall (rs0 : list otActiveScanResult) (j0 : Joiner),
       Forall (fun r => 0 < mLength (mSteeringData r)) rs0 ->
       last_match rs0 = None ->
       mJoinerRouterPanId j0 = kPanIdBroadcast ->
       run (Discovery (map Some rs0 ++ [None])) j0 =
         Returns tt {| self := j0; calls := [] |}.
Proof.
  intros Hrs Hlast Hpan. split.
  - rewrite (Discovery_scan rs j Hrs), Hlast. cbn [candidate_of mJoinerRouterPanId].
    now rewrite Hpan.
  - intros rs0 j0 Hrs0 Hnone Hj0.
    rewrite (Discovery_scan rs0 j0 Hrs0), Hnone. now rewrite Hj0.
Qed.

End DiscoveryProperties.

(** ** Starting *)

Section StartProperties.
Context {mNetif : ThreadNetif}.

(** [Start] in one equation, by the answers of the three services it
    asks. *)
Lemma Start_on (aPSKd : string) (aProvisioningUrl : option string) (s : Store) :
  let len := to_uint8 (strlen aPSKd) in
  let e1 := Dtls_SetPsk_returns aPSKd len in
  let e2 := SetProvisioningUrl_returns aProvisioningUrl in
  let e3 := Mle_Discover_returns 0 0 Mac_GetPanId in
  Start aPSKd aProvisioningUrl s =
    if negb (bool_decide (e1 = kThreadError_None)) then
      Returns e1 {| self := self s;
                    calls := calls s ++ Start_first_calls aPSKd |}
    else if negb (bool_decide (e2 = kThreadError_None)) then
      Returns e2 {| self := self s;
                    calls := calls s ++ Start_first_calls aPSKd ++
                             [ProvisioningUrl_SetProvisioningUrl aProvisioningUrl] |}
    else
      Returns e3 {| self := forget_candidate (self s);
                    calls := calls s ++ Start_first_calls aPSKd ++
                             [ProvisioningUrl_SetProvisioningUrl aProvisioningUrl;
                              Mle_Discover 0 0 Mac_GetPanId] |}.
Proof.
  intros len e1 e2 e3.
  unfold Start, with_exit, bind, invoke, emit, set_self, SuccessOrExit,
    ret, goto_exit, block, bind, Start_first_calls, forget_candidate.
  fold len. fold e1. cbn.
  case_bool_decide as H1; cbn; [|now rewrite <- !app_assoc].
  fold e2. case_bool_decide as H2; cbn; [|now rewrite <- !app_assoc].
  fold e3. case_bool_decide as H3; cbn; now rewrite <- !app_assoc.
Qed.

(** C10, as the code has it.  [Start] installs the hashed address as the
    extended address and refreshes the link-local address before it asks
    for the pre-shared key to be installed, so a [Start] that fails has
    made these two calls all the same.  When the key or the provisioning
    URL is refused, the Joiner's own fields are as they were.  When the
    discovery request is refused, the key and the URL have been
    installed and [mJoinerRouterPanId] has been set to the broadcast PAN
    id.  The channel, the UDP port and the router address are never
    touched. *)
Theorem Start_failure_frame
    (aPSKd : string) (aProvisioningUrl : option string) (j : Joiner) :
  let len := to_uint8 (strlen aPSKd) in
  let e1 := Dtls_SetPsk_returns aPSKd len in
  let e2 := SetProvisioningUrl_returns aProvisioningUrl in
  let e3 := Mle_Discover_returns 0 0 Mac_GetPanId in
  e1 <> kThreadError_None \/ e2 <> kThreadError_None \/ e3 <> kThreadError_None ->
  exists (error : ThreadError) (s' : Store),
    run (Start aPSKd aProvisioningUrl) j = Returns error s'
    /\ error <> kThreadError_None
    /\ calls s' =
         [Mac_SetExtAddress Mac_GetHashMacAddress; Mle_UpdateLinkLocalAddress;
          Dtls_SetPsk aPSKd len] ++
         (if negb (bool_decide (e1 = kThreadError_None)) then []
          else if negb (bool_decide (e2 = kThreadError_None)) then
            [ProvisioningUrl_SetProvisioningUrl aProvisioningUrl]
          else
            [ProvisioningUrl_SetProvisioningUrl aProvisioningUrl;
             Mle_Discover 0 0 Mac_GetPanId])
    /\ mJoinerRouterChannel (self s') = mJoinerRouterChannel j
    /\ mJoinerUdpPort_ (self s') = mJoinerUdpPort_ j
    /\ mJoinerRouter (self s') = mJoinerRouter j
    /\ mJoinerRouterPanId (self s') =
         (if bool_decide (e1 = kThreadError_None) &&
             bool_decide (e2 = kThreadError_None)
          then kPanIdBroadcast
          else mJoinerRouterPanId j).
Proof.
  intros len e1 e2 e3 Hfail. unfold run.
  rewrite Start_on. fold len. fold e1. fold e2. fold e3.
  unfold Start_first_calls. fold len.
  case_bool_decide as H1; cbn [negb andb].
  - case_bool_decide as H2; cbn [negb andb].
    + eexists _, _. split; [reflexivity|]. cbn.
      repeat split; try reflexivity. intuition congruence.
    + eexists _, _. split; [reflexivity|]. cbn. repeat split; assumption.
  - eexists _, _. split; [reflexivity|]. cbn. repeat split; assumption.
Qed.

End StartProperties.

(** ** The handlers on the reference platform *)

Import Reference Scenario.

(** The spec's end-to-end scenario: one matching result with PAN id 0x1234,
    channel 15 and UDP port 1000, then the end of the scan. *)
Example end_to_end_scenario :
  run (Discovery (mNetif := healthy) [Some result1; None]) started =
    Returns tt
      {| self := {| mJoinerRouterChannel := 15; mJoinerRouterPanId := 0x1234;
                    mJoinerUdpPort_ := 1000; mJoinerRouter := router1 |};
         calls :=
           [Mac_SetPanId 0x1234; Mac_SetChannel 15;
            Ip6Filter_AddUnsecurePort 49191;
            SecureCoapClient_Connect
              {| mSockAddr := repeat 0 16;
                 mPeerAddr := [0xfe; 0x80; 0; 0; 0; 0; 0; 0; 2; 0; 0; 0; 0; 0; 0; 1];
                 mSockPort := 0; mPeerPort := 1000; mInterfaceId := 1 |}] |}.
Proof. vm_compute. reflexivity. Qed.

Example reference_checksums :
  Crc16_of kCcitt hashMac mod 128 = 70 /\
  Crc16_of kAnsi hashMac mod 128 = 44.
Proof. split; vm_compute; reflexivity. Qed.

(** A result without steering data. *)
Lemma empty_bitmap_witness :
  mLength (mSteeringData result_no_steering) = 0 /\
  run (HandleDiscoverResult (mNetif := healthy) (Some result_no_steering)) started =
    Undefined DivisionByZero.
Proof.
  split; [reflexivity|].
  apply (HandleDiscoverResult_empty_bitmap_divides_by_zero (mNetif := healthy)).
  reflexivity.
Defined.

(** The active timestamp is missing. *)
Lemma all_or_nothing_witness :
  In kActiveTimestamp entrust_tlvs /\
  tlv_ok entrust_without_timestamp stack kActiveTimestamp = false /\
  run (HandleJoinerEntrust (mNetif := healthy)
         entrust_header entrust_without_timestamp entrust_info stack) started =
    Returns tt {| self := started; calls := [] |}.
Proof.
  assert (Hin : In kActiveTimestamp entrust_tlvs) by (cbn; tauto).
  assert (Hbad : tlv_ok entrust_without_timestamp stack kActiveTimestamp = false)
    by (vm_compute; reflexivity).
  split; [exact Hin|]. split; [exact Hbad|].
  exact (HandleJoinerEntrust_all_or_nothing (mNetif := healthy)
           entrust_header entrust_without_timestamp entrust_info stack started
           kActiveTimestamp Hin Hbad).
Defined.

Lemma entrust_tlvs_all_ok :
  forall ty, In ty entrust_tlvs -> tlv_ok entrust_payload stack ty = true.
Proof.
  intros ty Hin. cbn in Hin.
  repeat (destruct Hin as [<- | Hin]; [vm_compute; reflexivity|]).
  contradiction.
Defined.

(** C3 as stated fails.  On a confirmable POST with all five TLVs valid
    the reference platform sees four installations and none of the active
    timestamp; the network name setter is handed the four bytes of the
    name followed by what the local held, bytes that are in no TLV of the
    request; and when no message buffer is left, no acknowledgment is
    sent at all, although the credentials are installed and the timer is
    armed. *)
Lemma entrust_installs_four_and_may_not_acknowledge :
  confirmable_post entrust_header = true /\
  forallb (tlv_ok entrust_payload stack) entrust_tlvs = true /\
  (exists s,
     run (HandleJoinerEntrust (mNetif := healthy)
            entrust_header entrust_payload entrust_info stack) started
       = Returns tt s /\
     List.length (List.filter (fun c => bool_decide (is_Some (installs c))) (calls s))
       = 4%nat /\
     (forall c, In c (calls s) ->
                installs c <> Some kActiveTimestamp /\
                installed_value c <> Some timestamp_bytes) /\
     In (Mac_SetNetworkName (name_bytes ++ repeat 0xcc 12)) (calls s) /\
     ~ In (Mac_SetNetworkName name_bytes) (calls s)) /\
  (exists s,
     run (HandleJoinerEntrust (mNetif := out_of_buffers)
            entrust_header entrust_payload entrust_info stack) started
       = Returns tt s /\
     List.filter is_SendMessage (calls s) = [] /\
     In (Timer_Start 100) (calls s)).
Proof.
  split; [vm_compute; reflexivity|].
  split; [vm_compute; reflexivity|].
  split.
  - eexists. split; [vm_compute; reflexivity|].
    split; [vm_compute; reflexivity|].
    split; [|split].
    + intros c Hin. cbn in Hin.
      repeat (destruct Hin as [<- | Hin];
              [split; intros Heq; vm_compute in Heq; congruence|]).
      contradiction.
    + vm_compute. tauto.
    + intros Hin. vm_compute in Hin.
      repeat (destruct Hin as [Hin | Hin]; [discriminate Hin|]).
      contradiction.
  - eexists. split; [vm_compute; reflexivity|].
    split; [reflexivity|]. cbn. tauto.
Defined.

(** Every TLV fills its local except the name of four bytes. *)
Lemma entrust_round_trip_witness :
  run (HandleJoinerEntrust (mNetif := healthy)
         entrust_header entrust_payload entrust_info stack) started =
    Returns tt
      {| self := started;
         calls :=
           [KeyManager_SetMasterKey masterKey_bytes 16;
            Mle_SetMeshLocalPrefix prefix_bytes;
            Mac_SetExtendedPanId extPanId_bytes;
            Mac_SetNetworkName (name_bytes ++ repeat 0xcc 12);
            CoapServer_NewMessage 0; Message_SetSubType_JoinerEntrust;
            Message_Append [98; 68; 18; 52; 7; 9];
            CoapServer_SendMessage [98; 68; 18; 52; 7; 9]
              {| mSockAddr := repeat 0 16;
                 mPeerAddr := mPeerAddr entrust_info;
                 mSockPort := 61631; mPeerPort := 61631; mInterfaceId := 1 |};
            Timer_Start 100] |}.
Proof.
  exact (proj1 (HandleJoinerEntrust_installs_four_and_acknowledges
                  (mNetif := healthy)
                  entrust_header entrust_payload entrust_info stack started
                  eq_refl eq_refl entrust_tlvs_all_ok)).
Defined.

(** An accepted finalize response. *)
Lemma finalize_closes_witness :
  run (HandleJoinerFinalizeResponse (mNetif := healthy)
         (Some finalize_header) (Some finalize_payload) kThreadError_None
         (stack kState)) started =
    Returns tt
      {| self := started;
         calls := [SecureCoapClient_Disconnect; Ip6Filter_RemoveUnsecurePort 49191] |}.
Proof.
  refine (proj1 (HandleJoinerFinalizeResponse_always_closes (mNetif := healthy)
                   (Some finalize_header) (Some finalize_payload)
                   kThreadError_None (stack kState) started _)).
  intros _. split; eexists; reflexivity.
Defined.

(** Both bits set, and only one. *)
Lemma steering_match_witness :
  run (HandleDiscoverResult (mNetif := healthy) (Some result1)) started =
    Returns tt {| self := candidate_of result1; calls := [] |} /\
  run (HandleDiscoverResult (mNetif := healthy) (Some result_one_bit)) started =
    Returns tt {| self := started; calls := [] |}.
Proof.
  split.
  - apply (steering_match_needs_both_bits (mNetif := healthy) result1 started);
      [reflexivity|]. split; vm_compute; reflexivity.
  - apply (steering_match_needs_both_bits (mNetif := healthy) result_one_bit started);
      [reflexivity|]. right. vm_compute. reflexivity.
Defined.

(** Two matches with a non-match between them. *)
Lemma last_match_wins_witness :
  run (Discovery (mNetif := healthy)
         [Some result1; Some result_one_bit; Some result2; None]) started =
    Returns tt
      {| self := candidate_of result2;
         calls := [Mac_SetPanId 0x5678; Mac_SetChannel 20;
                   Ip6Filter_AddUnsecurePort 49191;
                   SecureCoapClient_Connect
                     (peer_info (mNetif := healthy) (candidate_of result2))] |}.
Proof.
  refine (proj2 (Discovery_last_match_wins (mNetif := healthy)
                   [] [result_one_bit] [] result1 result2 started _ _ _ _)).
  - repeat constructor.
  - vm_compute. reflexivity.
  - vm_compute. reflexivity.
  - constructor.
Defined.

(** A non-confirmable POST. *)
Lemma drops_other_requests_witness :
  run (HandleJoinerEntrust (mNetif := healthy)
         entrust_header_non_confirmable entrust_payload entrust_info stack) started =
    Returns tt {| self := started; calls := [] |}.
Proof.
  apply (HandleJoinerEntrust_drops_other_requests (mNetif := healthy)).
  left. discriminate.
Defined.

(** C8 as stated fails: the second [Stop] is not a no-op, it disconnects
    the secured channel a second time. *)
Lemma second_Stop_disconnects_again :
  exists s1 s2 : Store,
    run (Stop (mNetif := healthy)) idle = Returns kThreadError_None s1 /\
    Stop (mNetif := healthy) s1 = Returns kThreadError_None s2 /\
    s2 <> s1 /\
    List.length (List.filter is_Disconnect (calls s1)) = 1%nat /\
    List.length (List.filter is_Disconnect (calls s2)) = 2%nat.
Proof.
  eexists _, _. split; [vm_compute; reflexivity|].
  split; [vm_compute; reflexivity|].
  split; [discriminate|]. split; reflexivity.
Defined.

Lemma effect_disconnect_idempotent (n : Net) :
  effect SecureCoapClient_Disconnect (effect SecureCoapClient_Disconnect n) =
  effect SecureCoapClient_Disconnect n.
Proof. reflexivity. Defined.

Lemma effect_remove_idempotent (p : Z) (n : Net) :
  effect (Ip6Filter_RemoveUnsecurePort p) (effect (Ip6Filter_RemoveUnsecurePort p) n) =
  effect (Ip6Filter_RemoveUnsecurePort p) n.
Proof.
  cbn. f_equal. apply set_eq. intros x.
  rewrite !elem_of_difference. tauto.
Defined.

Lemma effect_disconnect_remove (p : Z) (n : Net) :
  effect SecureCoapClient_Disconnect (effect (Ip6Filter_RemoveUnsecurePort p) n) =
  effect (Ip6Filter_RemoveUnsecurePort p) (effect SecureCoapClient_Disconnect n).
Proof. reflexivity. Defined.

(** On the modelled channel and filter, with the channel open and the
    port excepted, two [Stop]s leave what one leaves. *)
Lemma Stop_twice_witness :
  replay effect (close_calls (mNetif := healthy) ++ close_calls (mNetif := healthy))
         session_open =
  replay effect (close_calls (mNetif := healthy)) session_open.
Proof.
  exact (proj2 (proj2 (Stop_twice_repeats_close (mNetif := healthy) idle))
           Net effect
           effect_disconnect_idempotent
           (effect_remove_idempotent 49191)
           (effect_disconnect_remove 49191)
           session_open).
Defined.

(** Two matches, then a result without steering data. *)
Lemma empty_bitmap_loses_the_match_witness :
  steering_match (mNetif := healthy) result1 = true /\
  steering_match (mNetif := healthy) result2 = true /\
  run (Discovery (mNetif := healthy)
         [Some result1; Some result2; Some result_no_steering; None]) started =
    Undefined DivisionByZero.
Proof.
  split; [vm_compute; reflexivity|]. split; [vm_compute; reflexivity|].
  refine (Discovery_empty_bitmap_loses_the_match (mNetif := healthy)
            [result1; result2] result_no_steering [None] started _ _).
  - repeat constructor.
  - reflexivity.
Defined.

(** C9 as stated fails.  A steering match with PAN id 0xffff that is
    followed by a match with another PAN id is replaced by it, and at the
    terminal event the Joiner reprograms the radio, opens the unsecure
    port and connects to the later one; followed by a result without
    steering data, the scan is not defined at all. *)
Lemma broadcast_panid_match_is_replaced :
  steering_match (mNetif := healthy) result_broadcast = true /\
  mPanId result_broadcast = 0xffff /\
  run (Discovery (mNetif := healthy)
         [Some result_broadcast; Some result1; None]) started =
    Returns tt
      {| self := candidate_of result1;
         calls := [Mac_SetPanId 0x1234; Mac_SetChannel 15;
                   Ip6Filter_AddUnsecurePort 49191;
                   SecureCoapClient_Connect
                     (peer_info (mNetif := healthy) (candidate_of result1))] |} /\
  run (Discovery (mNetif := healthy)
         [Some result_broadcast; Some result_no_steering; None]) started =
    Undefined DivisionByZero.
Proof.
  split; [vm_compute; reflexivity|]. split; [reflexivity|].
  split; vm_compute; reflexivity.
Defined.

(** A match, then a match whose PAN id is 0xffff. *)
Lemma broadcast_panid_witness :
  run (Discovery (mNetif := healthy)
         [Some result1; Some result_broadcast; None]) started =
    Returns tt {| self := candidate_of result_broadcast; calls := [] |}.
Proof.
  refine (proj1 (broadcast_panid_candidate_is_not_joined (mNetif := healthy)
                   [result1; result_broadcast] result_broadcast started _ _ _)).
  - repeat constructor.
  - vm_compute. reflexivity.
  - reflexivity.
Defined.

(** C10 as stated fails: when the discovery request is refused, [Start]
    fails after it has already overwritten [mJoinerRouterPanId]. *)
Lemma Start_refused_discovery_changes_panid :
  exists (error : ThreadError) (s' : Store),
    run (Start (mNetif := discovery_refused) "J01NME" None) idle = Returns error s' /\
    error <> kThreadError_None /\
    self s' <> idle /\
    mJoinerRouterPanId idle = 0 /\
    mJoinerRouterPanId (self s') = 0xffff.
Proof.
  eexists _, _. split; [vm_compute; reflexivity|].
  split; [discriminate|]. split; [discriminate|]. split; reflexivity.
Defined.

Lemma Start_failure_witness :
  exists (error : ThreadError) (s' : Store),
    run (Start (mNetif := discovery_refused) "J01NME" None) idle = Returns error s' /\
    error <> kThreadError_None /\
    calls s' =
      [Mac_SetExtAddress hashMac; Mle_UpdateLinkLocalAddress; Dtls_SetPsk "J01NME" 6;
       ProvisioningUrl_SetProvisioningUrl None; Mle_Discover 0 0 0xffff] /\
    mJoinerRouterChannel (self s') = 0 /\
    mJoinerUdpPort_ (self s') = 0 /\
    mJoinerRouter (self s') = mJoinerRouter idle /\
    mJoinerRouterPanId (self s') = kPanIdBroadcast.
Proof.
  apply (Start_failure_frame (mNetif := discovery_refused) "J01NME" None idle).
  right. right. discriminate.
Defined.

(** Case analysis on whether a service answered [kThreadError_None]. *)
Ltac decide_error e :=
  let H := fresh "Herr" in
  destruct (decide (e = kThreadError_None)) as [H|H];
  [rewrite ?(bool_decide_eq_true_2 _ H) | rewrite ?(bool_decide_eq_false_2 _ H)].

Ltac settle_errors :=
  cbn;
  rewrite ?bool_decide_eq_true_2 by assumption;
  rewrite ?bool_decide_eq_false_2 by assumption;
  cbn; try reflexivity.

(** Membership in an explicit list of calls, one element at a time. *)
Ltac sort_events :=
  cbn;
  repeat match goal with
         | |- _ /\ _ => split
         | |- _ <-> _ => split
         | |- _ -> _ => intro
         | |- forall _, _ => intro
         | H : exists _, _ |- _ => destruct H
         | H : _ /\ _ |- _ => destruct H
         end;
  cbn in *;
  try solve [eexists; repeat (first [left; reflexivity | right])];
  intuition (try discriminate; try congruence; try assumption).

(** ** The identity-rotation timer *)

Section TimerProperties.
Context {random : PlatformRandom}.

(** X6.  When the timer fires, the Joiner installs an extended address of
    eight bytes, the [i]-th being the [i]-th random draw cut down to a
    byte, and refreshes the link-local address.  Nothing of what the local
    variable held before survives, and the Joiner's fields stay as they
    were. *)
Theorem HandleTimer_installs_random_identity
    (uninitialised : ExtAddress) (j : Joiner) :
  List.length (m8 uninitialised) = 8%nat ->
  let fresh :=
    {| m8 := map (fun i => to_uint8 (otPlatRandomGet_returns i)) (seq 0 8) |} in
  run (HandleTimer uninitialised) j =
    Returns tt {| self := j;
                  calls := [Mac_SetExtAddress fresh; Mle_UpdateLinkLocalAddress] |}
  /\ Forall (fun b => 0 <= b < 256) (m8 fresh).
Proof.
  intros Hlen fresh. split.
  - destruct uninitialised as [l]; cbn [m8] in Hlen.
    do 9 (destruct l as [|? l]; try discriminate Hlen).
    reflexivity.
  - subst fresh; cbn [m8]. apply Forall_map, Forall_forall. intros i _.
    unfold to_uint8. apply Z.mod_pos_bound. lia.
Qed.

End TimerProperties.

(** ** The finalize request *)

Section FinalizeProperties.
Import Finalize.
Context {mSecureCoapClient : SecureCoapClient}.

(** The calls of [SendJoinerFinalize], case by case. *)
Lemma SendJoinerFinalize_events :
  SendJoinerFinalize =
    SecureCoapClient_NewMessage request_header ::
    if negb (NewMessage_returns request_header) then []
    else
      Message_Append (stateTlv kAccept) sizeof_stateTlv ::
      if negb (bool_decide (Append_returns (stateTlv kAccept) sizeof_stateTlv
                            = kThreadError_None))
      then [Message_Free]
      else
        (if has_url
         then [Message_Append mProvisioningUrl
                 (mProvisioningUrl_GetLength + sizeof_TlvHeader)]
         else []) ++
        if negb appends_accepted then [Message_Free]
        else if fits_cert_log
             then [SecureCoapClient_SendMessage request_content]
             else [].
Proof.
  unfold SendJoinerFinalize, events_of, and_then, ask, record, verify_or_exit,
    success_or_exit, pure, jump, and_then, appends_accepted, fits_cert_log,
    request_content, has_url, request_header.
  destruct (NewMessage_returns _); cbn; [|reflexivity].
  decide_error (Append_returns (stateTlv kAccept) sizeof_stateTlv);
    cbn; [|settle_errors].
  destruct (0 <? mProvisioningUrl_GetLength); cbn.
  - decide_error (Append_returns mProvisioningUrl
                    (mProvisioningUrl_GetLength + sizeof_TlvHeader));
      cbn; [|settle_errors].
    destruct OPENTHREAD_ENABLE_CERT_LOG; cbn; [|settle_errors].
    destruct (_ <=? _); settle_errors.
  - destruct OPENTHREAD_ENABLE_CERT_LOG; cbn; [|settle_errors].
    destruct (_ <=? _); settle_errors.
Qed.

(** X7.  What becomes of the message [SendJoinerFinalize] obtains.  It is
    freed exactly when it was obtained and an append was refused.  It is
    handed to [SendMessage] exactly when it was obtained, every append was
    accepted and, with the certification log compiled in, it fits the log
    buffer.  When no message could be obtained nothing else is called. *)
Theorem SendJoinerFinalize_message_ownership :
  (In Message_Free SendJoinerFinalize <->
     NewMessage_returns request_header = true /\ appends_accepted = false)
  /\ ((exists m, In (SecureCoapClient_SendMessage m) SendJoinerFinalize) <->
        NewMessage_returns request_header = true /\ appends_accepted = true /\
        fits_cert_log = true)
  /\ (NewMessage_returns request_header = false <->
        SendJoinerFinalize = [SecureCoapClient_NewMessage request_header]).
Proof.
  rewrite SendJoinerFinalize_events. unfold appends_accepted.
  destruct (NewMessage_returns request_header); cbn [negb]; [|sort_events].
  decide_error (Append_returns (stateTlv kAccept) sizeof_stateTlv);
    cbn [negb andb]; [|sort_events].
  destruct has_url; cbn [negb orb app].
  - decide_error (Append_returns mProvisioningUrl
                    (mProvisioningUrl_GetLength + sizeof_TlvHeader));
      cbn [negb]; [destruct fits_cert_log|]; sort_events.
  - destruct fits_cert_log; sort_events.
Qed.

(** X8.  What the finalize request is.  The first call always asks for a
    message with a confirmable POST header to the finalize URI with a
    payload marker.  A message that is sent carries the State TLV set to
    accept and, after it, the provisioning URL TLV exactly when the URL's
    length is positive; sending is the last call.  The URL TLV is never
    appended when the URL is empty, and it is appended with the URL's
    length plus the size of a TLV header. *)
Theorem SendJoinerFinalize_request :
  (exists rest,
     SendJoinerFinalize =
       SecureCoapClient_NewMessage
         [Init kCoapTypeConfirmable kCoapRequestPost;
          AppendUriPathOptions OPENTHREAD_URI_JOINER_FINALIZE;
          SetPayloadMarker] :: rest)
  /\ (forall m, In (SecureCoapClient_SendMessage m) SendJoinerFinalize ->
        m = stateTlv kAccept ::
            (if 0 <? mProvisioningUrl_GetLength then [mProvisioningUrl] else [])
        /\ last SendJoinerFinalize = Some (SecureCoapClient_SendMessage m))
  /\ (forall l, In (Message_Append mProvisioningUrl l) SendJoinerFinalize ->
        0 < mProvisioningUrl_GetLength /\
        l = mProvisioningUrl_GetLength + sizeof_TlvHeader).
Proof.
  rewrite SendJoinerFinalize_events.
  unfold appends_accepted, request_content, has_url, request_header.
  split; [eexists; reflexivity|].
  destruct (NewMessage_returns _); cbn [negb]; [|sort_events].
  decide_error (Append_returns (stateTlv kAccept) sizeof_stateTlv);
    cbn [negb andb]; [|sort_events].
  destruct (0 <? mProvisioningUrl_GetLength) eqn:Hurl; cbn [negb orb app].
  - apply Z.ltb_lt in Hurl.
    decide_error (Append_returns mProvisioningUrl
                    (mProvisioningUrl_GetLength + sizeof_TlvHeader));
      cbn [negb]; [destruct fits_cert_log|]; sort_events.
  - destruct fits_cert_log; sort_events.
Qed.

End FinalizeProperties.

(** ** More on the entrust handler *)

Section EntrustOwnership.
Context {tlvs : MeshCoPTlvs} {mNetif : ThreadNetif}.

(** X1.  What becomes of the message [SendJoinerEntrustResponse] obtains
    from the CoAP server.  It is freed exactly when it was obtained and
    the append or the send was refused; a message that the server accepted
    for sending is never freed, and without a message nothing is appended,
    sent or freed.  The Joiner's fields stay as they were. *)
Theorem SendJoinerEntrustResponse_message_ownership
    (aRequestHeader : Header) (aRequestInfo : MessageInfo) (j : Joiner) :
  exists s : Store,
    run (SendJoinerEntrustResponse aRequestHeader aRequestInfo) j = Returns tt s
    /\ self s = j
    /\ (In Message_Free (calls s) <->
          CoapServer_NewMessage_returns 0 = true /\
          response_goes_out aRequestHeader aRequestInfo = false)
    /\ (CoapServer_NewMessage_returns 0 = false ->
          calls s = [CoapServer_NewMessage 0])
    /\ (forall m i, In (CoapServer_SendMessage m i) (calls s) ->
          m = response_bytes aRequestHeader /\ i = response_info aRequestInfo /\
          Message_Append_returns (response_bytes aRequestHeader) = kThreadError_None).
Proof.
  eexists. split.
  - unfold run. apply SendJoinerEntrustResponse_on.
  - cbn [self calls app]. split; [reflexivity|].
    unfold response_calls, response_goes_out.
    fold (response_bytes aRequestHeader) (response_info aRequestInfo).
    destruct (CoapServer_NewMessage_returns 0); cbn [negb andb]; [|sort_events].
    decide_error (Message_Append_returns (response_bytes aRequestHeader));
      cbn [negb andb]; [|sort_events].
    decide_error (CoapServer_SendMessage_returns
                    (response_bytes aRequestHeader) (response_info aRequestInfo));
      sort_events.
Qed.

(** X2.  Whatever the request and whatever its locals hold,
    [HandleJoinerEntrust] leaves the Joiner's fields as they were, and
    every call it makes is one of these: the four credential setters
    ([SetMasterKey], [SetMeshLocalPrefix], [SetExtendedPanId],
    [SetNetworkName]), the calls for the acknowledgment on the CoAP server
    and its message, and the start of the timer.  In particular it never
    connects or disconnects the secured channel, never opens or removes an
    unsecure port, and never sets the PAN id, the channel or the extended
    address. *)
Theorem HandleJoinerEntrust_calls_only_setters_response_timer
    (aHeader : Header) (aMessage : Message) (aMessageInfo : MessageInfo)
    (locals : TlvType -> Tlv) (j : Joiner) :
  exists s : Store,
    run (HandleJoinerEntrust aHeader aMessage aMessageInfo locals) j = Returns tt s
    /\ self s = j
    /\ Forall (fun c =>
                 match c with
                 | KeyManager_SetMasterKey _ _ | Mle_SetMeshLocalPrefix _
                 | Mac_SetExtendedPanId _ | Mac_SetNetworkName _
                 | CoapServer_NewMessage _ | Message_SetSubType_JoinerEntrust
                 | Message_Append _ | CoapServer_SendMessage _ _ | Message_Free
                 | Timer_Start _ => True
                 | _ => False
                 end) (calls s).
Proof.
  eexists. split.
  - unfold run. apply HandleJoinerEntrust_on.
  - destruct (confirmable_post aHeader &&
              forallb (tlv_ok aMessage locals) entrust_tlvs);
      cbn [self calls app]; [|split; [reflexivity|constructor]].
    split; [reflexivity|].
    unfold response_calls, credential_calls.
    repeat (destruct (negb _)); cbn [app]; repeat constructor.
Qed.

End EntrustOwnership.

(** ** More on starting *)

Section StartOrder.
Context {mNetif : ThreadNetif}.

(** X3.  [Start] asks three services in order (the pre-shared key, the
    provisioning URL, the discovery) and stops at the first that refuses,
    returning its error: the URL is set only if the key was accepted, and
    discovery is requested only if both were.  [Start] succeeds exactly
    when all three accept, and then the recorded PAN id is the broadcast
    one and the other fields are as they were. *)
Theorem Start_stops_at_first_refusal
    (aPSKd : string) (aProvisioningUrl : option string) (j : Joiner) :
  let e1 := Dtls_SetPsk_returns aPSKd (to_uint8 (strlen aPSKd)) in
  let e2 := SetProvisioningUrl_returns aProvisioningUrl in
  let e3 := Mle_Discover_returns 0 0 Mac_GetPanId in
  exists (error : ThreadError) (s : Store),
    run (Start aPSKd aProvisioningUrl) j = Returns error s
    /\ error = (if negb (bool_decide (e1 = kThreadError_None)) then e1
                else if negb (bool_decide (e2 = kThreadError_None)) then e2
                else e3)
    /\ (error = kThreadError_None <->
          e1 = kThreadError_None /\ e2 = kThreadError_None /\ e3 = kThreadError_None)
    /\ (In (ProvisioningUrl_SetProvisioningUrl aProvisioningUrl) (calls s) <->
          e1 = kThreadError_None)
    /\ (In (Mle_Discover 0 0 Mac_GetPanId) (calls s) <->
          e1 = kThreadError_None /\ e2 = kThreadError_None)
    /\ (error = kThreadError_None -> self s = forget_candidate j).
Proof.
  intros e1 e2 e3. unfold run. rewrite Start_on.
  fold e1. fold e2. fold e3. unfold Start_first_calls.
  decide_error e1; cbn [negb]; [|eexists _, _; split; [reflexivity|]; sort_events].
  decide_error e2; cbn [negb]; eexists _, _; (split; [reflexivity|]); sort_events.
Qed.

(** X4.  The length [Start] hands over with the pre-shared key is the
    length of the string cut down to a byte.  For a key of fewer than 256
    characters it is the true length; for a longer key it is smaller than
    the true length, and [Start] itself does not refuse the key. *)
Theorem Start_psk_length_is_a_byte
    (aPSKd : string) (aProvisioningUrl : option string) (j : Joiner) :
  exists (error : ThreadError) (s : Store) (len : Z) (rest : list Call),
    run (Start aPSKd aProvisioningUrl) j = Returns error s
    /\ calls s = [Mac_SetExtAddress Mac_GetHashMacAddress;
                  Mle_UpdateLinkLocalAddress; Dtls_SetPsk aPSKd len] ++ rest
    /\ len = strlen aPSKd mod 256
    /\ 0 <= len < 256
    /\ ((String.length aPSKd < 256)%nat -> len = strlen aPSKd)
    /\ ((256 <= String.length aPSKd)%nat -> len < strlen aPSKd).
Proof.
  unfold run. rewrite Start_on. unfold Start_first_calls.
  set (len := to_uint8 (strlen aPSKd)).
  assert (Hlen : len = strlen aPSKd mod 256 /\ 0 <= len < 256 /\
                 ((String.length aPSKd < 256)%nat -> len = strlen aPSKd) /\
                 ((256 <= String.length aPSKd)%nat -> len < strlen aPSKd)).
  { subst len. unfold to_uint8, strlen. split; [reflexivity|].
    split; [apply Z.mod_pos_bound; lia|]. split; intros Hn.
    - apply Z.mod_small. lia.
    - pose proof (Z.mod_pos_bound (Z.of_nat (String.length aPSKd)) 256). lia. }
  decide_error (Dtls_SetPsk_returns aPSKd len); cbn [negb].
  - decide_error (SetProvisioningUrl_returns aProvisioningUrl); cbn [negb];
      eexists _, _, len, _; (split; [reflexivity|]);
      (split; [cbn; reflexivity|]); exact Hlen.
  - eexists _, _, len, []. split; [reflexivity|].
    split; [reflexivity|]. exact Hlen.
Qed.

End StartOrder.

(** ** Handlers one after another *)

Section SequenceProperties.
Context {crc16 : Crc16Lib} {tlvs : MeshCoPTlvs} {mNetif : ThreadNetif}.

(** A whole scan on any store. *)
Lemma Discovery_scan_on (rs : list otActiveScanResult) (s : Store) :
  Forall (fun r => 0 < mLength (mSteeringData r)) rs ->
  let j' := match last_match rs with
            | Some r => candidate_of r
            | None => self s
            end in
  Discovery (map Some rs ++ [None]) s =
    Returns tt {| self := j';
                  calls := calls s ++
                           if mJoinerRouterPanId j' =? kPanIdBroadcast
                           then [] else connect_calls j' |}.
Proof.
  intros Hrs j'.
  rewrite (Discovery_app _ _ _ _ (Discovery_results rs s Hrs)).
  rewrite (Discovery_cons _ _ _ _ (HandleDiscoverResult_end _)).
  reflexivity.
Qed.

(** X5.  After a [Start] that succeeded, the scan decides alone where the
    Joiner turns.  Without a steering match the terminal event makes no
    call, whatever candidate the Joiner held from an earlier attempt; with
    one, the Joiner holds the last match and turns to it unless its PAN id
    is the broadcast one, in which case the terminal event makes no call
    either.  The candidate held before [Start] is never used. *)
Theorem Start_forgets_earlier_candidate
    (aPSKd : string) (aProvisioningUrl : option string)
    (results : list otActiveScanResult) (j : Joiner) :
  Dtls_SetPsk_returns aPSKd (to_uint8 (strlen aPSKd)) = kThreadError_None ->
  SetProvisioningUrl_returns aProvisioningUrl = kThreadError_None ->
  Mle_Discover_returns 0 0 Mac_GetPanId = kThreadError_None ->
  Forall (fun r => 0 < mLength (mSteeringData r)) results ->
  let started_calls :=
    Start_first_calls aPSKd ++
    [ProvisioningUrl_SetProvisioningUrl aProvisioningUrl;
     Mle_Discover 0 0 Mac_GetPanId] in
  run (Start_then_scan aPSKd aProvisioningUrl results) j =
    match last_match results with
    | None =>
        Returns kThreadError_None
          {| self := forget_candidate j; calls := started_calls |}
    | Some r =>
        Returns kThreadError_None
          {| self := candidate_of r;
             calls := started_calls ++
                      if mPanId r =? kPanIdBroadcast then []
                      else connect_calls (candidate_of r) |}
    end.
Proof.
  intros H1 H2 H3 Hrs started_calls.
  unfold run, Start_then_scan, block, bind, call, ret.
  rewrite Start_on, H1, H2, H3.
  rewrite !bool_decide_eq_true_2 by reflexivity. cbn [negb].
  rewrite (Discovery_scan_on results _ Hrs). cbn [self calls app].
  destruct (last_match results) as [r|]; reflexivity.
Qed.

(** X9.  The unsecure-port exception that the terminal event opens for
    the join is the one that closing releases.  After a scan that ends
    with a connect, both the finalize response (whatever it is) and [Stop]
    add the two calls of [Close] to the four of the connect; once they are
    through the secured channel is closed and the client's port has no
    exception, while every other port keeps the exception it had.  The
    Joiner still holds the candidate. *)
Theorem join_exception_is_released
    (results : list otActiveScanResult) (r : otActiveScanResult)
    (aHeader : option Header) (aMessage : option Message)
    (aResult : ThreadError) (uninitialised : Tlv) (j : Joiner) :
  Forall (fun r => 0 < mLength (mSteeringData r)) results ->
  last_match results = Some r ->
  mPanId r <> kPanIdBroadcast ->
  (aResult = kThreadError_None -> is_Some aHeader /\ is_Some aMessage) ->
  let session := connect_calls (candidate_of r) ++ close_calls in
  run (Scan_then_response results aHeader aMessage aResult uninitialised) j =
    Returns tt {| self := candidate_of r; calls := session |}
  /\ run (Scan_then_Stop results) j =
       Returns kThreadError_None {| self := candidate_of r; calls := session |}
  /\ forall n : Net,
       secure_channel_open (replay effect session n) = false /\
       unsecure_ports (replay effect session n) =
         unsecure_ports n ∖ {[ SecureCoapClient_GetPort ]}.
Proof.
  intros Hrs Hlast Hpan Hptr session.
  assert (Hscan : forall s0 : Store,
             calls s0 = [] ->
             Discovery (map Some results ++ [None]) s0 =
               Returns tt {| self := candidate_of r;
                             calls := connect_calls (candidate_of r) |}).
  { intros s0 Hs0. rewrite (Discovery_scan_on results s0 Hrs), Hlast, Hs0.
    cbn [candidate_of mJoinerRouterPanId app].
    now rewrite (proj2 (Z.eqb_neq _ _) Hpan). }
  split; [|split].
  - unfold run, Scan_then_response, block, bind, call.
    rewrite Hscan by reflexivity.
    rewrite finalize_body_reaches_exit by assumption.
    now rewrite Close_on.
  - unfold run, Scan_then_Stop, block, bind, call.
    rewrite Hscan by reflexivity. now rewrite Stop_on.
  - intros n. cbn. split; [reflexivity|].
    apply set_eq. intros p.
    rewrite !elem_of_difference, elem_of_union. tauto.
Qed.

End SequenceProperties.

(** ** The added handlers on the reference platform *)

Import MoreScenarios.

(** A key of 256 characters is handed over with length 0. *)
Example long_psk_is_handed_over_with_length_zero :
  exists s : Store,
    run (Start (mNetif := healthy) long_psk None) idle = Returns kThreadError_None s /\
    nth_error (calls s) 2 = Some (Dtls_SetPsk long_psk 0).
Proof. eexists. split; vm_compute; reflexivity. Qed.

(** The timer on a counting random source. *)
Lemma HandleTimer_witness :
  run (HandleTimer (random := counter) stack_garbage) started =
    Returns tt
      {| self := started;
         calls := [Mac_SetExtAddress {| m8 := [0; 37; 74; 111; 148; 185; 222; 3] |};
                   Mle_UpdateLinkLocalAddress] |}.
Proof.
  exact (proj1 (HandleTimer_installs_random_identity (random := counter)
                  stack_garbage started eq_refl)).
Defined.

(** A restart with a stale candidate and a scan without a match. *)
Lemma Start_forgets_witness :
  run (Start_then_scan (mNetif := healthy) "J01NME" None [result_one_bit]) stale =
    Returns kThreadError_None
      {| self := forget_candidate stale;
         calls := [Mac_SetExtAddress hashMac; Mle_UpdateLinkLocalAddress;
                   Dtls_SetPsk "J01NME" 6;
                   ProvisioningUrl_SetProvisioningUrl None;
                   Mle_Discover 0 0 0xffff] |}.
Proof.
  refine (Start_forgets_earlier_candidate (mNetif := healthy)
            "J01NME" None [result_one_bit] stale eq_refl eq_refl eq_refl _).
  repeat constructor.
Defined.

(** The end-to-end scenario, then a transport error. *)
Lemma join_exception_witness :
  run (Scan_then_response (mNetif := healthy) [result1] None None kThreadError_Drop
         (stack kState))
      started =
    Returns tt
      {| self := candidate_of result1;
         calls := connect_calls (mNetif := healthy) (candidate_of result1) ++
                  [SecureCoapClient_Disconnect; Ip6Filter_RemoveUnsecurePort 49191] |}.
Proof.
  refine (proj1 (join_exception_is_released (mNetif := healthy)
                   [result1] result1 None None kThreadError_Drop (stack kState)
                   started _ _ _ _)).
  - repeat constructor.
  - vm_compute. reflexivity.
  - discriminate.
  - discriminate.
Defined.

(** The finalize request with a URL of 20 bytes, and with a message too
    long for the certification log. *)
Example finalize_request_on_reference_client :
  Finalize.SendJoinerFinalize
    (mSecureCoapClient :=
       Finalize.client true kThreadError_None kThreadError_None 20 false 25) =
    [Finalize.SecureCoapClient_NewMessage
       [Finalize.Init kCoapTypeConfirmable kCoapRequestPost;
        Finalize.AppendUriPathOptions "c/jf"; Finalize.SetPayloadMarker];
     Finalize.Message_Append (Finalize.stateTlv Finalize.kAccept) 3;
     Finalize.Message_Append Finalize.mProvisioningUrl 22;
     Finalize.SecureCoapClient_SendMessage
       [Finalize.stateTlv Finalize.kAccept; Finalize.mProvisioningUrl]]
  /\ Finalize.SendJoinerFinalize
       (mSecureCoapClient :=
          Finalize.client true kThreadError_None kThreadError_None 0 true 200) =
       [Finalize.SecureCoapClient_NewMessage
          [Finalize.Init kCoapTypeConfirmable kCoapRequestPost;
           Finalize.AppendUriPathOptions "c/jf"; Finalize.SetPayloadMarker];
        Finalize.Message_Append (Finalize.stateTlv Finalize.kAccept) 3].
Proof. split; vm_compute; reflexivity. Qed.

(** ** Starting over *)

Section StartAgain.
Context {mNetif : ThreadNetif}.

(** X10.  Whether [Start] succeeds or fails, every call it makes is one
    of these: [SetExtAddress], [UpdateLinkLocalAddress], [SetPsk],
    [SetProvisioningUrl], [Discover].  It never disconnects the secured
    channel, never connects it, never opens or removes an unsecure port
    and never sets the PAN id or the channel; it does change the extended
    address, as its first call. *)
Theorem Start_calls_only_identity_key_url_discover
    (aPSKd : string) (aProvisioningUrl : option string) (j : Joiner) :
  exists (error : ThreadError) (s : Store),
    run (Start aPSKd aProvisioningUrl) j = Returns error s
    /\ Forall (fun c =>
                 match c with
                 | Mac_SetExtAddress _ | Mle_UpdateLinkLocalAddress
                 | Dtls_SetPsk _ _ | ProvisioningUrl_SetProvisioningUrl _
                 | Mle_Discover _ _ _ => True
                 | _ => False
                 end) (calls s)
    /\ hd_error (calls s) = Some (Mac_SetExtAddress Mac_GetHashMacAddress).
Proof.
  unfold run. rewrite Start_on. unfold Start_first_calls.
  repeat (destruct (negb _)); eexists _, _;
    (split; [reflexivity|]); cbn [calls app];
    (split; [repeat constructor | reflexivity]).
Qed.

End StartAgain.
